(** * A shallow embedding of the order-book playground (src/main.py)

    The matching engine of [src/main.py] is embedded as pure functions over
    explicit book states.  Python's unbounded [int] is [Z]; the [deque] of an
    [OrderLevel] is a [list] whose head is the oldest order; the two
    [defaultdict]s of an [OrderBook] are finite maps from prices to levels.

    Conventions of the embedding:
    - a method that mutates [self] returns the new state next to its result;
    - [print] calls are dropped, they do not influence state or results;
    - every [Order] handed to [process] is a freshly built object (as in the
      driver at the bottom of the file), so a resting order is referenced by
      one queue only and in-place updates of [order.quantity] are updates of
      the queue entry. *)

From Stdlib Require Import Ascii.
From stdpp Require Import gmap list sorting strings pretty.

Local Open Scope Z_scope.

(** ** Data model *)

(** [class Side(Enum)] *)
Inductive Side : Type :=
| BUY
| SELL.

#[global] Instance Side_eq_dec : EqDecision Side.
Proof. solve_decision. Defined.

(** [class Order(pydantic.BaseModel)]: four integer-like fields, none of
    them constrained. *)
Module Order.
Record t : Type := make {
  id : Z;
  side : Side;
  quantity : Z;
  price : Z;
}.

(** [order.quantity = q] *)
Definition set_quantity (q : Z) (o : t) : t :=
  {| id := id o; side := side o; quantity := q; price := price o |}.
End Order.

Abbreviation Order := Order.t.

#[global] Instance Order_eq_dec : EqDecision Order.
Proof. solve_decision. Defined.

(** [class Trade(pydantic.BaseModel)] *)
Module Trade.
Record t : Type := make {
  buyer : Z;
  seller : Z;
  price : Z;
  quantity : Z;
}.
End Trade.

Abbreviation Trade := Trade.t.

#[global] Instance Trade_eq_dec : EqDecision Trade.
Proof. solve_decision. Defined.

(** The values [calc_max_bid] and [calc_min_ask] range over: an [int] key of
    the dictionary, or [float('inf')] / [float('-inf')] for an empty side.
    Python compares an int with a float infinity exactly. *)
Module Number.
Inductive t : Type :=
| NegInf
| Int (z : Z)
| PosInf.

Definition ltb (a b : t) : bool :=
  match a, b with
  | NegInf, NegInf => false
  | NegInf, _ => true
  | Int _, NegInf => false
  | Int x, Int y => x <? y
  | Int _, PosInf => true
  | PosInf, _ => false
  end.

Definition leb (a b : t) : bool :=
  match a, b with
  | NegInf, _ => true
  | Int _, NegInf => false
  | Int x, Int y => x <=? y
  | Int _, PosInf => true
  | PosInf, PosInf => true
  | PosInf, _ => false
  end.
End Number.

(** ** [class OrderLevel] *)
Module OrderLevel.

Record t : Type := make { orders : list Order }.

(** [__init__]: an empty deque. *)
Definition init : t := {| orders := [] |}.

(** [add]: append at the tail. *)
Definition add (self : t) (order : Order) : t :=
  {| orders := orders self ++ [order] |}.

(** The [while self.orders] loop of [execute_sell], on the deque.  It
    returns the trades, the final value of the local [total_quantity] and the
    deque as the loop leaves it.  The statement [total_quantity == 0] of the
    first branch is a comparison whose value is discarded: the local keeps its
    value. *)
Fixpoint execute_sell_loop (queue : list Order) (seller at_price total_quantity : Z)
  : list Trade * Z * list Order :=
  match queue with
  | [] => ([], total_quantity, [])
  | order :: rest =>
      if total_quantity <? Order.quantity order then
        ([Trade.make (Order.id order) seller at_price total_quantity],
         total_quantity,
         Order.set_quantity (Order.quantity order - total_quantity) order :: rest)
      else
        let '(trades, remaining, queue') :=
          execute_sell_loop rest seller at_price (total_quantity - Order.quantity order) in
        (Trade.make (Order.id order) seller at_price (Order.quantity order) :: trades,
         remaining, queue')
  end.

Definition execute_sell (self : t) (seller at_price total_quantity : Z)
  : list Trade * Z * t :=
  let '(trades, remaining, queue) :=
    execute_sell_loop (orders self) seller at_price total_quantity in
  (trades, remaining, {| orders := queue |}).

(** [depth]: total resting quantity. *)
Definition depth (self : t) : Z :=
  foldr (λ order acc, Order.quantity order + acc) 0 (orders self).

End OrderLevel.

Abbreviation OrderLevel := OrderLevel.t.

#[global] Instance OrderLevel_eq_dec : EqDecision OrderLevel.
Proof. solve_decision. Defined.

(** What a call of [process] can do: return a list of trades, fall off the
    end of the function (Python then returns [None]), or raise. *)
Inductive Outcome : Type :=
| Returns (trades : list Trade)
| ReturnsNone
| Raises.

(** ** [class OrderBook] *)
Module OrderBook.

Record t : Type := make {
  bids : gmap Z OrderLevel;
  asks : gmap Z OrderLevel;
}.

(** [__init__]: two empty dictionaries. *)
Definition init : t := {| bids := ∅; asks := ∅ |}.

(** [d.keys()] *)
Definition keys (d : gmap Z OrderLevel) : list Z := (map_to_list d).*1.

(** [max(d.keys())] and [min(d.keys())] on a non-empty key list. *)
Definition max_of (k : Z) (ks : list Z) : Z := foldr Z.max k ks.
Definition min_of (k : Z) (ks : list Z) : Z := foldr Z.min k ks.

Definition calc_max_bid (self : t) : Number.t :=
  match keys (bids self) with
  | [] => Number.NegInf
  | k :: ks => Number.Int (max_of k ks)
  end.

Definition calc_min_ask (self : t) : Number.t :=
  match keys (asks self) with
  | [] => Number.PosInf
  | k :: ks => Number.Int (min_of k ks)
  end.

(** [spread]: the pair [(min_ask, None)] for a buyer, [(None, max_bid)] for a
    seller. *)
Definition spread (self : t) (side : Side) : option Number.t * option Number.t :=
  match side with
  | BUY => (Some (calc_min_ask self), None)
  | SELL => (None, Some (calc_max_bid self))
  end.

(** [d[price].add(order)] on a [defaultdict(OrderLevel)]: a missing key is
    created with an empty level first. *)
Definition add_at (d : gmap Z OrderLevel) (price : Z) (order : Order) : gmap Z OrderLevel :=
  <[price := OrderLevel.add (default OrderLevel.init (d !! price)) order]> d.

(** The order of [sorted(..., reverse=True)] on integers. *)
Definition descending (x y : Z) : Prop := y ≤ x.

#[global] Instance descending_dec : RelDecision descending.
Proof. intros x y. unfold descending. apply _. Defined.

(** [sorted([price for price, level in self.bids.items() if price >= p],
    reverse=True)] *)
Definition levels_from (d : gmap Z OrderLevel) (p : Z) : list Z :=
  merge_sort descending (filter (λ k, p ≤ k) (keys d)).

(** The [for price in levels] loop of [execute_sell]. *)
Fixpoint execute_sell_loop (levels : list Z) (seller : Z)
    (bids : gmap Z OrderLevel) (total_quantity : Z)
  : list Trade * Z * gmap Z OrderLevel :=
  match levels with
  | [] => ([], total_quantity, bids)
  | price :: levels' =>
      let level := default OrderLevel.init (bids !! price) in
      let '(trades, total_quantity', level') :=
        OrderLevel.execute_sell level seller price total_quantity in
      let bids' :=
        match OrderLevel.orders level' with
        | [] => delete price bids
        | _ :: _ => <[price := level']> bids
        end in
      if total_quantity' =? 0 then (trades, total_quantity', bids')
      else
        let '(more, remaining, bids'') :=
          execute_sell_loop levels' seller bids' total_quantity' in
        (trades ++ more, remaining, bids'')
  end.

Definition execute_sell (self : t) (order : Order) : list Trade * Z * t :=
  let levels := levels_from (bids self) (Order.price order) in
  let '(executed_trades, total_quantity, bids') :=
    execute_sell_loop levels (Order.id order) (bids self) (Order.quantity order) in
  (executed_trades, total_quantity, {| bids := bids'; asks := asks self |}).

(** The guards of [process] compare the price with one component of
    [spread]; comparing an int with [None] raises [TypeError]. *)
Definition guard (cmp : Number.t → Number.t → bool) (price : Z)
    (bound : option Number.t) : option bool :=
  match bound with
  | Some b => Some (cmp (Number.Int price) b)
  | None => None
  end.

Definition ge (a b : Number.t) : bool := Number.leb b a.
Definition lt (a b : Number.t) : bool := Number.ltb a b.
Definition le (a b : Number.t) : bool := Number.leb a b.
Definition gt (a b : Number.t) : bool := Number.ltb b a.

(** [process]: the [match] statement tries its cases in order; a case whose
    pattern matches and whose guard is false is skipped.  The first case has
    no [return]: control leaves the [match] and the function ends. *)
Definition process (self : t) (order : Order) : t * Outcome :=
  let '(min_ask, max_bid) := spread self (Order.side order) in
  let price := Order.price order in
  match Order.side order with
  | BUY =>
      match guard ge price min_ask with
      | None => (self, Raises)
      | Some true => (self, ReturnsNone)
      | Some false =>
          match guard lt price min_ask with
          | None => (self, Raises)
          | Some true =>
              ({| bids := add_at (bids self) price order; asks := asks self |},
               Returns [])
          | Some false => (self, Raises)
          end
      end
  | SELL =>
      match guard le price max_bid with
      | None => (self, Raises)
      | Some true =>
          let '(trades, quantity_left, self') := execute_sell self order in
          if quantity_left =? 0 then
            let order' := Order.set_quantity quantity_left order in
            ({| bids := bids self';
                asks := add_at (asks self') (Order.price order') order' |},
             Returns trades)
          else (self', Returns trades)
      | Some false =>
          match guard gt price max_bid with
          | None => (self, Raises)
          | Some true =>
              ({| bids := bids self; asks := add_at (asks self) price order |},
               Returns [])
          | Some false => (self, Raises)
          end
      end
  end.

(** A caller feeding orders one after the other, as the driver does. *)
Definition process_all (self : t) (orders : list Order) : t :=
  foldl (λ book order, (process book order).1) self orders.

End OrderBook.

Abbreviation OrderBook := OrderBook.t.

(** ** The driver's fixture *)

Definition buy (i p q : Z) : Order := Order.make i BUY q p.
Definition sell (i p q : Z) : Order := Order.make i SELL q p.

Definition driver_orders : list Order :=
  [buy 1 100 1; buy 2 100 2; buy 3 99 1; buy 4 99 2; buy 5 99 3; buy 6 98 3;
   sell 7 101 3; sell 8 102 5].

Definition executed_sale : Order := sell 9 99 5.

Definition driver_book : OrderBook := OrderBook.process_all OrderBook.init driver_orders.

(** The bid side the driver builds, written out. *)
Definition fixture_bids : gmap Z OrderLevel :=
  list_to_map
    [(100, OrderLevel.make [buy 1 100 1; buy 2 100 2]);
     (99, OrderLevel.make [buy 3 99 1; buy 4 99 2; buy 5 99 3]);
     (98, OrderLevel.make [buy 6 98 3])].

Definition fixture_asks : gmap Z OrderLevel :=
  list_to_map
    [(101, OrderLevel.make [sell 7 101 3]);
     (102, OrderLevel.make [sell 8 102 5])].

(** ** Observations used by the properties *)

(** No resting bid is priced at or above a resting ask, in the book's own
    terms: [calc_max_bid() < calc_min_ask()]. *)
Definition no_cross (book : OrderBook) : bool :=
  Number.ltb (OrderBook.calc_max_bid book) (OrderBook.calc_min_ask book).

(** Sum of the quantities of a list of trades. *)
Definition trade_total (trades : list Trade) : Z :=
  foldr (λ t acc, Trade.quantity t + acc) 0 trades.

(** All orders resting on one side, level after level. *)
Definition resting (d : gmap Z OrderLevel) : list Order :=
  mbind (λ kv, OrderLevel.orders kv.2) (map_to_list d).

(** Quantity resting in the book under the identity [i]. *)
Definition resting_quantity (book : OrderBook) (i : Z) : Z :=
  foldr (λ o acc, Order.quantity o + acc) 0
    (filter (λ o, Order.id o = i)
       (resting (OrderBook.bids book) ++ resting (OrderBook.asks book))).

(** Whether the price of an order reaches the best opposing price, the test
    of the first and third guards of [process]. *)
Definition crosses (book : OrderBook) (order : Order) : bool :=
  match Order.side order with
  | BUY => Number.leb (OrderBook.calc_min_ask book) (Number.Int (Order.price order))
  | SELL => Number.leb (Number.Int (Order.price order)) (OrderBook.calc_max_bid book)
  end.

(** The book with an order appended to the level at its price on its own
    side, what the second and fourth cases of [process] build. *)
Definition rested (book : OrderBook) (order : Order) : OrderBook :=
  match Order.side order with
  | BUY =>
      OrderBook.make
        (OrderBook.add_at (OrderBook.bids book) (Order.price order) order)
        (OrderBook.asks book)
  | SELL =>
      OrderBook.make (OrderBook.bids book)
        (OrderBook.add_at (OrderBook.asks book) (Order.price order) order)
  end.

(** An order that satisfies the input contract of the interface. *)
Definition valid_order (o : Order) : Prop :=
  0 < Order.quantity o ∧ 0 < Order.price o.

(** ** [class Output]

    The renderer writes lines to standard output; here [print] returns the
    lines it writes, in order.  Its only failure is the [ValueError] that
    [max] raises on an empty sequence, before anything is written. *)
Inductive Printed : Type :=
| Lines (lines : list string)
| ValueError.

Module Output.

(** [self.spaces = 10] *)
Definition spaces : nat := 10.

(** [c * n] for a one-character string [c]. *)
Fixpoint times (c : ascii) (n : nat) : string :=
  match n with
  | O => EmptyString
  | S n' => String c (times c n')
  end.

(** [s.ljust(width)]: pad with blanks on the right, never truncate. *)
Definition ljust (s : string) (width : nat) : string :=
  s +:+ times " "%char (width - String.length s).

(** [max((len(s) for s in rows))], which raises on an empty list. *)
Definition max_len (rows : list string) : option nat :=
  match rows with
  | [] => None
  | r :: rs => Some (foldr Nat.max (String.length r) (String.length <$> rs))
  end.

(** [format]: one row of the table. *)
Definition format (price : Z) (level : OrderLevel) : string :=
  "Level " +:+ pretty price +:+ ": Total " +:+ pretty (OrderLevel.depth level)
  +:+ " / #" +:+ pretty (length (OrderLevel.orders level)) +:+ " order".

(** [draw_line], the local function of [outline]. *)
Definition draw_line (length_bids length_asks : nat) (sep : string) : string :=
  times "_"%char length_bids +:+ "_" +:+ sep +:+ times "_"%char length_asks.

(** [outline]: both widths are computed first, then the shorter column is
    padded with empty rows, then the table is written. *)
Definition outline (bids asks : list string) : Printed :=
  match max_len bids with
  | None => ValueError
  | Some widest_bid =>
      match max_len asks with
      | None => ValueError
      | Some widest_ask =>
          let length_bids := (widest_bid + spaces)%nat in
          let length_asks := (widest_ask + spaces)%nat in
          let asks' :=
            if (length asks <? length bids)%nat
            then asks ++ replicate (length bids - length asks) EmptyString
            else asks in
          let bids' :=
            if (length asks <? length bids)%nat then bids
            else if (length bids <? length asks)%nat
            then bids ++ replicate (length asks - length bids) EmptyString
            else bids in
          Lines
            ([draw_line length_bids length_asks "_";
              ljust "BID (Buyers)" length_bids +:+ " | ASK (Sellers)";
              draw_line length_bids length_asks "|"]
             ++ zip_with (λ bid ask, ljust bid length_bids +:+ " | " +:+ ask) bids' asks'
             ++ [draw_line length_bids length_asks "|"])
      end
  end.

(** The orders of [sorted(d.items(), reverse=True)] and [sorted(d.items())]:
    the keys of a dictionary differ, so tuples are ordered by price alone. *)
Definition by_price_descending (x y : Z * OrderLevel) : Prop := y.1 ≤ x.1.
Definition by_price_ascending (x y : Z * OrderLevel) : Prop := x.1 ≤ y.1.

#[global] Instance by_price_descending_dec : RelDecision by_price_descending.
Proof. intros x y. unfold by_price_descending. apply _. Defined.

#[global] Instance by_price_ascending_dec : RelDecision by_price_ascending.
Proof. intros x y. unfold by_price_ascending. apply _. Defined.

(** [print] *)
Definition print (book : OrderBook) : Printed :=
  let bids :=
    (λ kv, format kv.1 kv.2)
      <$> merge_sort by_price_descending (map_to_list (OrderBook.bids book)) in
  let asks :=
    (λ kv, format kv.1 kv.2)
      <$> merge_sort by_price_ascending (map_to_list (OrderBook.asks book)) in
  outline bids asks.

End Output.

(** ** Further observations *)

(** Quantity resting on one side of the book: [depth()] summed over the
    levels. *)
Definition side_depth (d : gmap Z OrderLevel) : Z :=
  map_fold (λ _ level acc, OrderLevel.depth level + acc) 0 d.

(** No key of the dictionary holds an empty deque. *)
Definition no_empty_level (d : gmap Z OrderLevel) : Prop :=
  map_Forall (λ _ level, OrderLevel.orders level ≠ []) d.

(** Every order of the level at key [k] is an order of the given side with
    limit price [k]. *)
Definition rests_at_own_price (side : Side) (d : gmap Z OrderLevel) : Prop :=
  map_Forall
    (λ k level,
       Forall (λ o, Order.price o = k ∧ Order.side o = side) (OrderLevel.orders level))
    d.


(** The shape of a book the engine maintains on both sides. *)
Definition well_formed (book : OrderBook) : Prop :=
  no_empty_level (OrderBook.bids book) ∧ no_empty_level (OrderBook.asks book) ∧
  rests_at_own_price BUY (OrderBook.bids book) ∧
  rests_at_own_price SELL (OrderBook.asks book).

(** ** Facts about [OrderLevel.execute_sell] *)

Section level_facts.
Variables (seller at_price : Z).

(** First branch of the loop: the head is larger than what comes in.  One
    trade, the head reduced in place, and the local [total_quantity]
    returned as it came in. *)
Lemma level_loop_partial (head : Order) (rest : list Order) (q : Z) :
  q < Order.quantity head →
  OrderLevel.execute_sell_loop (head :: rest) seller at_price q =
    ([Trade.make (Order.id head) seller at_price q], q,
     Order.set_quantity (Order.quantity head - q) head :: rest).
Proof.
  intros Hlt. simpl.
  destruct (Z.ltb_spec q (Order.quantity head)) as [_ | Hge]; [reflexivity | lia].
Qed.

(** Second branch: the head is consumed whole and the loop goes on with
    the rest of the queue, whatever is left of the incoming quantity. *)
Lemma level_loop_full (head : Order) (rest : list Order) (q : Z) :
  Order.quantity head ≤ q →
  OrderLevel.execute_sell_loop (head :: rest) seller at_price q =
    let '(trades, remaining, queue) :=
      OrderLevel.execute_sell_loop rest seller at_price (q - Order.quantity head) in
    (Trade.make (Order.id head) seller at_price (Order.quantity head) :: trades,
     remaining, queue).
Proof.
  intros Hle. simpl.
  destruct (Z.ltb_spec q (Order.quantity head)) as [Hlt | _]; [lia | reflexivity].
Qed.

(** The loop serves the queue from its head: the buyers of the trades are
    the identities of a prefix of the queue, in queue order. *)
Lemma level_loop_fifo (queue : list Order) (q : Z) :
  let trades := (OrderLevel.execute_sell_loop queue seller at_price q).1.1 in
  Trade.buyer <$> trades = Order.id <$> take (length trades) queue.
Proof.
  revert q. induction queue as [| head rest IH]; intros q; [reflexivity |].
  simpl. destruct (q <? Order.quantity head); [reflexivity |].
  specialize (IH (q - Order.quantity head)). simpl in IH.
  destruct (OrderLevel.execute_sell_loop rest seller at_price (q - Order.quantity head))
    as [[trades remaining] queue'].
  simpl in *. f_equal. exact IH.
Qed.

(** Every trade of a level is priced at the level and names the seller. *)
Lemma level_loop_trades (queue : list Order) (q : Z) :
  Forall (λ t, Trade.price t = at_price ∧ Trade.seller t = seller)
    (OrderLevel.execute_sell_loop queue seller at_price q).1.1.
Proof.
  revert q. induction queue as [| head rest IH]; intros q; simpl; [constructor |].
  destruct (q <? Order.quantity head); simpl.
  - constructor; [done | constructor].
  - specialize (IH (q - Order.quantity head)).
    destruct (OrderLevel.execute_sell_loop rest seller at_price (q - Order.quantity head))
      as [[trades remaining] queue'].
    simpl in *. constructor; done.
Qed.

(** The loop tests the queue only: with nothing left to sell and a head of
    positive quantity it still takes the first branch. *)
Lemma level_loop_nothing_left (head : Order) (rest : list Order) :
  0 < Order.quantity head →
  OrderLevel.execute_sell_loop (head :: rest) seller at_price 0 =
    ([Trade.make (Order.id head) seller at_price 0], 0,
     Order.set_quantity (Order.quantity head - 0) head :: rest).
Proof. apply level_loop_partial. Qed.
End level_facts.

(** C3 (evaluation at the failing input): a level holding one order of
    quantity 5 is hit with an incoming quantity of 3.  One trade of quantity 3
    is emitted and the head stays in front with quantity 2, as specified; the
    returned remaining quantity is 3, where the specification says zero. *)
Example level_partial_fill_returns_incoming_quantity :
  OrderLevel.execute_sell (OrderLevel.make [buy 1 100 5]) 9 100 3 =
    ([Trade.make 1 9 100 3], 3, OrderLevel.make [buy 1 100 2]).
Proof. reflexivity. Qed.

(** C5 (evaluation at the failing input): from the empty book, three orders
    of positive price and quantity.  The sale of 1 consumes the head of level
    100 exactly, and the loop then emits a second trade of quantity 0 against
    the next order of the level. *)
Example zero_quantity_trade_emitted :
  let book := OrderBook.process_all OrderBook.init [buy 1 100 1; buy 2 100 5] in
  Forall valid_order [buy 1 100 1; buy 2 100 5; sell 3 100 1] ∧
  (OrderBook.process book (sell 3 100 1)).2 =
    Returns [Trade.make 1 3 100 1; Trade.make 2 3 100 0].
Proof.
  split; [| vm_compute; reflexivity].
  repeat constructor.
Qed.

(** ** Facts about the dictionaries and the best prices *)

Lemma elem_of_keys (d : gmap Z OrderLevel) (k : Z) :
  k ∈ OrderBook.keys d ↔ is_Some (d !! k).
Proof.
  unfold OrderBook.keys. rewrite list_elem_of_fmap. split.
  - intros [[k' level] [-> Hin]]. apply elem_of_map_to_list in Hin. by exists level.
  - intros [level Hlevel]. exists (k, level). split; [done |].
    by apply elem_of_map_to_list.
Qed.

Lemma keys_nil (d : gmap Z OrderLevel) : OrderBook.keys d = [] ↔ d = ∅.
Proof.
  unfold OrderBook.keys. rewrite <- map_to_list_empty_iff.
  split; [apply fmap_nil_inv | by intros ->].
Qed.

Lemma max_of_upper (k : Z) (ks : list Z) (x : Z) :
  x ∈ k :: ks → x ≤ OrderBook.max_of k ks.
Proof.
  unfold OrderBook.max_of. induction ks as [| y ks IH]; simpl.
  - intros Hx. apply list_elem_of_singleton in Hx. lia.
  - rewrite !elem_of_cons. intros [-> | [-> | Hx]].
    + assert (k ≤ foldr Z.max k ks) by (apply IH; left). lia.
    + lia.
    + assert (x ≤ foldr Z.max k ks) by (apply IH; by right). lia.
Qed.

Lemma max_of_elem (k : Z) (ks : list Z) : OrderBook.max_of k ks ∈ k :: ks.
Proof.
  unfold OrderBook.max_of. induction ks as [| y ks IH]; simpl; [left |].
  destruct (Z.max_spec y (foldr Z.max k ks)) as [[_ ->] | [_ ->]].
  - apply elem_of_cons in IH as [-> | IH]; [left | do 2 right; done].
  - right; left.
Qed.

Lemma min_of_lower (k : Z) (ks : list Z) (x : Z) :
  x ∈ k :: ks → OrderBook.min_of k ks ≤ x.
Proof.
  unfold OrderBook.min_of. induction ks as [| y ks IH]; simpl.
  - intros Hx. apply list_elem_of_singleton in Hx. lia.
  - rewrite !elem_of_cons. intros [-> | [-> | Hx]].
    + assert (foldr Z.min k ks ≤ k) by (apply IH; left). lia.
    + lia.
    + assert (foldr Z.min k ks ≤ x) by (apply IH; by right). lia.
Qed.

Lemma min_of_elem (k : Z) (ks : list Z) : OrderBook.min_of k ks ∈ k :: ks.
Proof.
  unfold OrderBook.min_of. induction ks as [| y ks IH]; simpl; [left |].
  destruct (Z.min_spec y (foldr Z.min k ks)) as [[_ ->] | [_ ->]].
  - right; left.
  - apply elem_of_cons in IH as [-> | IH]; [left | do 2 right; done].
Qed.

(** [calc_max_bid] is minus infinity on an empty bid side and the largest
    key otherwise. *)
Lemma calc_max_bid_spec (book : OrderBook) :
  (OrderBook.bids book = ∅ ∧ OrderBook.calc_max_bid book = Number.NegInf) ∨
  (∃ m, OrderBook.calc_max_bid book = Number.Int m ∧
        is_Some (OrderBook.bids book !! m) ∧
        ∀ k, is_Some (OrderBook.bids book !! k) → k ≤ m).
Proof.
  unfold OrderBook.calc_max_bid.
  destruct (OrderBook.keys (OrderBook.bids book)) as [| k ks] eqn:Hkeys.
  - left. split; [by apply keys_nil | done].
  - right. exists (OrderBook.max_of k ks). split; [done |]. split.
    + apply elem_of_keys. rewrite Hkeys. apply max_of_elem.
    + intros x Hx. apply max_of_upper. rewrite <- Hkeys. by apply elem_of_keys.
Qed.

(** [calc_min_ask] is plus infinity on an empty ask side and the smallest
    key otherwise. *)
Lemma calc_min_ask_spec (book : OrderBook) :
  (OrderBook.asks book = ∅ ∧ OrderBook.calc_min_ask book = Number.PosInf) ∨
  (∃ m, OrderBook.calc_min_ask book = Number.Int m ∧
        is_Some (OrderBook.asks book !! m) ∧
        ∀ k, is_Some (OrderBook.asks book !! k) → m ≤ k).
Proof.
  unfold OrderBook.calc_min_ask.
  destruct (OrderBook.keys (OrderBook.asks book)) as [| k ks] eqn:Hkeys.
  - left. split; [by apply keys_nil | done].
  - right. exists (OrderBook.min_of k ks). split; [done |]. split.
    + apply elem_of_keys. rewrite Hkeys. apply min_of_elem.
    + intros x Hx. apply min_of_lower. rewrite <- Hkeys. by apply elem_of_keys.
Qed.


(** ** Facts about [OrderBook.execute_sell] *)

Lemma descending_trans : Transitive OrderBook.descending.
Proof. unfold OrderBook.descending. intros x y z ? ?. lia. Qed.

Lemma descending_total : Total OrderBook.descending.
Proof. unfold OrderBook.descending. intros x y. lia. Qed.

(** The levels a sale looks at are the bid prices at or above its limit. *)
Lemma elem_of_levels_from (d : gmap Z OrderLevel) (p k : Z) :
  k ∈ OrderBook.levels_from d p ↔ is_Some (d !! k) ∧ p ≤ k.
Proof.
  unfold OrderBook.levels_from.
  rewrite merge_sort_Permutation, list_elem_of_filter, elem_of_keys. tauto.
Qed.

Lemma levels_from_NoDup (d : gmap Z OrderLevel) (p : Z) :
  NoDup (OrderBook.levels_from d p).
Proof.
  unfold OrderBook.levels_from. rewrite merge_sort_Permutation.
  apply NoDup_filter, NoDup_fst_map_to_list.
Qed.

Lemma levels_from_sorted (d : gmap Z OrderLevel) (p : Z) :
  StronglySorted OrderBook.descending (OrderBook.levels_from d p).
Proof.
  pose proof descending_trans. pose proof descending_total.
  apply StronglySorted_merge_sort; assumption.
Qed.

(** They come best price first, and no price comes twice. *)
Lemma levels_from_strictly_descending (d : gmap Z OrderLevel) (p : Z) :
  StronglySorted (λ x y, y < x) (OrderBook.levels_from d p).
Proof.
  pose proof (levels_from_sorted d p) as Hsorted.
  pose proof (levels_from_NoDup d p) as Hnodup.
  induction Hsorted as [| x l Hl IH Hx]; [constructor |].
  apply NoDup_cons in Hnodup as [Hnotin Hnodup].
  constructor; [by apply IH |].
  rewrite Forall_forall in Hx |- *. intros y Hy.
  specialize (Hx y Hy). unfold OrderBook.descending in Hx.
  assert (x ≠ y) by (intros ->; done). lia.
Qed.

(** One round of the loop over the levels, as an equation. *)
Lemma book_loop_cons (price : Z) (levels : list Z) (seller : Z)
    (bids : gmap Z OrderLevel) (q : Z) :
  OrderBook.execute_sell_loop (price :: levels) seller bids q =
    let level := default OrderLevel.init (bids !! price) in
    let '(trades, q', level') := OrderLevel.execute_sell level seller price q in
    let bids' :=
      match OrderLevel.orders level' with
      | [] => delete price bids
      | _ :: _ => <[price := level']> bids
      end in
    if q' =? 0 then (trades, q', bids')
    else
      let '(more, remaining, bids'') :=
        OrderBook.execute_sell_loop levels seller bids' q' in
      (trades ++ more, remaining, bids'').
Proof. reflexivity. Qed.

(** Selling never creates a bid level. *)
Lemma book_loop_dom (levels : list Z) (seller : Z) (bids : gmap Z OrderLevel)
    (q k : Z) :
  is_Some ((OrderBook.execute_sell_loop levels seller bids q).2 !! k) →
  is_Some (bids !! k).
Proof.
  revert bids q. induction levels as [| price levels IH]; intros bids q; [done |].
  rewrite book_loop_cons. cbv zeta.
  unfold OrderLevel.execute_sell.
  destruct (bids !! price) as [level |] eqn:Hlevel; simpl.
  - destruct (OrderLevel.execute_sell_loop (OrderLevel.orders level) seller price q)
      as [[trades q'] queue].
    assert (Hstep : ∀ bids',
      bids' = match queue with
              | [] => delete price bids
              | _ :: _ => <[price := OrderLevel.make queue]> bids
              end →
      is_Some (bids' !! k) → is_Some (bids !! k)).
    { intros bids' ->. destruct queue.
      - rewrite lookup_delete. case_decide; [by intros [? ?] | done].
      - rewrite lookup_insert. case_decide; [by subst | done]. }
    simpl. destruct (q' =? 0); simpl.
    + by apply Hstep.
    + intros Hk. eapply Hstep; [reflexivity |].
      specialize (IH (match queue with
                      | [] => delete price bids
                      | _ :: _ => <[price := OrderLevel.make queue]> bids
                      end) q').
      destruct (OrderBook.execute_sell_loop levels seller _ q') as [[more remaining] bids''].
      by apply IH.
  - destruct (q =? 0); simpl.
    + rewrite lookup_delete. case_decide; [by intros [? ?] | done].
    + specialize (IH (delete price bids) q).
      destruct (OrderBook.execute_sell_loop levels seller (delete price bids) q)
        as [[more remaining] bids''].
      simpl in *. intros Hk. apply IH in Hk.
      rewrite lookup_delete in Hk. case_decide; [by destruct Hk | done].
Qed.

(** Every trade of a sale is priced at one of the levels visited. *)
Lemma book_loop_trade_prices (levels : list Z) (seller : Z)
    (bids : gmap Z OrderLevel) (q : Z) :
  Forall (λ t, Trade.price t ∈ levels ∧ Trade.seller t = seller)
    (OrderBook.execute_sell_loop levels seller bids q).1.1.
Proof.
  revert bids q. induction levels as [| price levels IH]; intros bids q;
    [constructor |].
  rewrite book_loop_cons. cbv zeta. unfold OrderLevel.execute_sell.
  pose proof (level_loop_trades seller price
    (OrderLevel.orders (default OrderLevel.init (bids !! price))) q) as Hlevel.
  destruct (OrderLevel.execute_sell_loop _ seller price q) as [[trades q'] queue].
  simpl in Hlevel.
  assert (Hhere : Forall (λ t, Trade.price t ∈ price :: levels ∧ Trade.seller t = seller) trades).
  { eapply Forall_impl; [exact Hlevel |]. intros t [-> ->]. split; [left | done]. }
  simpl. destruct (q' =? 0); simpl; [done |].
  match goal with
  | |- context [OrderBook.execute_sell_loop levels seller ?b q'] =>
      specialize (IH b q');
      destruct (OrderBook.execute_sell_loop levels seller b q') as [[more remaining] bids'']
  end.
  simpl in *. apply Forall_app. split; [done |].
  eapply Forall_impl; [exact IH |]. intros t [Hin ->]. split; [by right | done].
Qed.

Lemma same_price_then_later (price : Z) (trades : list Trade) (later : list Z) :
  Forall (λ t, Trade.price t = price) trades →
  Forall (OrderBook.descending price) later →
  StronglySorted OrderBook.descending later →
  StronglySorted OrderBook.descending ((Trade.price <$> trades) ++ later).
Proof.
  induction 1 as [| t trades Ht Hall IH]; intros Hlater Hsorted; csimpl; [done |].
  constructor; [by apply IH |].
  rewrite Ht. apply Forall_app. split; [| done].
  rewrite Forall_fmap. eapply Forall_impl; [exact Hall |].
  intros t' Ht'. simpl. rewrite Ht'. unfold OrderBook.descending. lia.
Qed.

(** With the levels best price first, the trades come best price first. *)
Lemma book_loop_trades_descending (levels : list Z) (seller : Z)
    (bids : gmap Z OrderLevel) (q : Z) :
  StronglySorted OrderBook.descending levels →
  StronglySorted OrderBook.descending
    (Trade.price <$> (OrderBook.execute_sell_loop levels seller bids q).1.1).
Proof.
  intros Hsorted. revert bids q.
  induction Hsorted as [| price levels Hlevels IH Hprice]; intros bids q;
    [constructor |].
  rewrite book_loop_cons. cbv zeta. unfold OrderLevel.execute_sell.
  pose proof (level_loop_trades seller price
    (OrderLevel.orders (default OrderLevel.init (bids !! price))) q) as Hlevel.
  destruct (OrderLevel.execute_sell_loop _ seller price q) as [[trades q'] queue].
  simpl in Hlevel.
  assert (Hflat : ∀ later : list Z,
    Forall (OrderBook.descending price) later →
    StronglySorted OrderBook.descending later →
    StronglySorted OrderBook.descending ((Trade.price <$> trades) ++ later)).
  { intros later Hlater Hsl. apply (same_price_then_later price); [| done | done].
    eapply Forall_impl; [exact Hlevel |]. by intros t [? _]. }
  simpl. destruct (q' =? 0); simpl.
  - specialize (Hflat [] (Forall_nil_2 _) (SSorted_nil _)).
    by rewrite app_nil_r in Hflat.
  - match goal with
    | |- context [OrderBook.execute_sell_loop levels seller ?b q'] =>
        specialize (IH b q');
        pose proof (book_loop_trade_prices levels seller b q') as Hin;
        destruct (OrderBook.execute_sell_loop levels seller b q') as [[more remaining] bids'']
    end.
    simpl in *. rewrite fmap_app. apply Hflat; [| done].
    rewrite Forall_fmap. eapply Forall_impl; [exact Hin |].
    intros t [Ht _]. simpl. rewrite Forall_forall in Hprice. by apply Hprice.
Qed.

(** The trades of a sale are priced at bid levels at or above the limit of
    the sale, and they come best price first. *)
Lemma execute_sell_trade_prices (book : OrderBook) (order : Order) :
  let trades := (OrderBook.execute_sell book order).1.1 in
  Forall (λ t, is_Some (OrderBook.bids book !! Trade.price t) ∧
               Order.price order ≤ Trade.price t) trades ∧
  StronglySorted OrderBook.descending (Trade.price <$> trades).
Proof.
  unfold OrderBook.execute_sell.
  pose proof (book_loop_trade_prices
    (OrderBook.levels_from (OrderBook.bids book) (Order.price order))
    (Order.id order) (OrderBook.bids book) (Order.quantity order)) as Hin.
  pose proof (book_loop_trades_descending
    (OrderBook.levels_from (OrderBook.bids book) (Order.price order))
    (Order.id order) (OrderBook.bids book) (Order.quantity order)
    (levels_from_sorted _ _)) as Hsorted.
  destruct (OrderBook.execute_sell_loop _ _ _ _) as [[trades remaining] bids'].
  simpl in *. split; [| done].
  eapply Forall_impl; [exact Hin |].
  intros t [Ht _]. by apply elem_of_levels_from in Ht.
Qed.

(** A sale leaves the asks alone and creates no bid level. *)
Lemma execute_sell_frame (book : OrderBook) (order : Order) :
  let book' := (OrderBook.execute_sell book order).2 in
  OrderBook.asks book' = OrderBook.asks book ∧
  ∀ k, is_Some (OrderBook.bids book' !! k) → is_Some (OrderBook.bids book !! k).
Proof.
  unfold OrderBook.execute_sell.
  pose proof (book_loop_dom
    (OrderBook.levels_from (OrderBook.bids book) (Order.price order))
    (Order.id order) (OrderBook.bids book) (Order.quantity order)) as Hdom.
  destruct (OrderBook.execute_sell_loop _ _ _ _) as [[trades remaining] bids'].
  simpl in *. split; [done | exact Hdom].
Qed.

(** ** Facts about [OrderBook.process] *)

Lemma Number_leb_ltb (a b : Number.t) : Number.leb a b = negb (Number.ltb b a).
Proof. destruct a, b; simpl; try reflexivity. apply Z.leb_antisym. Qed.

(** The two BUY cases of the [match], as one equation. *)
Lemma process_buy (book : OrderBook) (order : Order) :
  Order.side order = BUY →
  OrderBook.process book order =
    if Number.leb (OrderBook.calc_min_ask book) (Number.Int (Order.price order))
    then (book, ReturnsNone)
    else (OrderBook.make
            (OrderBook.add_at (OrderBook.bids book) (Order.price order) order)
            (OrderBook.asks book),
          Returns []).
Proof.
  intros Hside. unfold OrderBook.process, OrderBook.spread. rewrite Hside.
  unfold OrderBook.guard, OrderBook.ge, OrderBook.lt.
  rewrite Number_leb_ltb.
  by destruct (Number.ltb (Number.Int (Order.price order)) (OrderBook.calc_min_ask book)).
Qed.

(** The two SELL cases of the [match], as one equation. *)
Lemma process_sell (book : OrderBook) (order : Order) :
  Order.side order = SELL →
  OrderBook.process book order =
    if Number.leb (Number.Int (Order.price order)) (OrderBook.calc_max_bid book)
    then
      let '(trades, quantity_left, book') := OrderBook.execute_sell book order in
      if quantity_left =? 0 then
        (OrderBook.make (OrderBook.bids book')
           (OrderBook.add_at (OrderBook.asks book') (Order.price order)
              (Order.set_quantity quantity_left order)),
         Returns trades)
      else (book', Returns trades)
    else (OrderBook.make (OrderBook.bids book)
            (OrderBook.add_at (OrderBook.asks book) (Order.price order) order),
          Returns []).
Proof.
  intros Hside. unfold OrderBook.process, OrderBook.spread. rewrite Hside.
  unfold OrderBook.guard, OrderBook.le, OrderBook.gt.
  rewrite Number_leb_ltb.
  by destruct (Number.ltb (OrderBook.calc_max_bid book) (Number.Int (Order.price order))).
Qed.

(** The last case of the [match] is dead code: for every book and every
    order one of the four guarded cases is taken. *)
Lemma process_never_raises (book : OrderBook) (order : Order) :
  (OrderBook.process book order).2 ≠ Raises.
Proof.
  destruct (Order.side order) eqn:Hside.
  - rewrite (process_buy _ _ Hside). by destruct (Number.leb _ _).
  - rewrite (process_sell _ _ Hside). destruct (Number.leb _ _); [| done].
    destruct (OrderBook.execute_sell book order) as [[trades quantity_left] book'].
    by destruct (quantity_left =? 0).
Qed.

(** Resting an order changes the dictionary it is rested in. *)
Lemma add_at_lookup (d : gmap Z OrderLevel) (p : Z) (order : Order) :
  OrderBook.add_at d p order !! p =
    Some (OrderLevel.make
            (OrderLevel.orders (default OrderLevel.init (d !! p)) ++ [order])).
Proof. unfold OrderBook.add_at. by rewrite lookup_insert_eq. Qed.

Lemma add_at_changes (d : gmap Z OrderLevel) (p : Z) (order : Order) :
  OrderBook.add_at d p order ≠ d.
Proof.
  intros Heq. pose proof (add_at_lookup d p order) as Hlookup.
  rewrite Heq in Hlookup. destruct (d !! p) as [level |]; [| done].
  simpl in Hlookup. injection Hlookup as Hlevel.
  apply (f_equal OrderLevel.orders) in Hlevel. simpl in Hlevel.
  apply (f_equal length) in Hlevel. rewrite length_app in Hlevel. simpl in Hlevel. lia.
Qed.

Lemma add_at_dom (d : gmap Z OrderLevel) (p k : Z) (order : Order) :
  is_Some (OrderBook.add_at d p order !! k) ↔ k = p ∨ is_Some (d !! k).
Proof.
  unfold OrderBook.add_at. rewrite lookup_insert. case_decide.
  - subst. split; [by left | by eexists].
  - split; [by right | by intros [? | ?]].
Qed.


(** ** The properties, evaluated and proved *)

(** C1 (evaluation at the failing input): three valid orders from the empty
    book.  The sale of 1 at 100 consumes the first bid of level 100 exactly;
    [execute_sell] reports 0 left, so [process] rests the sale with quantity 0
    as an ask at 100 while the second bid still rests at 100.  After the call
    the best bid equals the best ask: the no-cross property is lost, although
    it held before the call. *)
Example no_cross_lost_after_exact_fill :
  let before := OrderBook.process_all OrderBook.init [buy 1 100 1; buy 2 100 5] in
  let after := OrderBook.process_all OrderBook.init
                 [buy 1 100 1; buy 2 100 5; sell 3 100 1] in
  Forall valid_order [buy 1 100 1; buy 2 100 5; sell 3 100 1] ∧
  no_cross before = true ∧
  after = OrderBook.make {[100 := OrderLevel.make [buy 2 100 5]]}
                         {[100 := OrderLevel.make [sell 3 100 0]]} ∧
  OrderBook.calc_max_bid after = Number.Int 100 ∧
  OrderBook.calc_min_ask after = Number.Int 100 ∧
  no_cross after = false.
Proof.
  cbv zeta. split; [repeat constructor |].
  repeat split; vm_compute; reflexivity.
Qed.

(** C2 (evaluation at the failing inputs): quantity is not conserved.
    A sale of 5 against a single bid of 1 trades 1 and the other 4 are neither
    traded nor rested; a sale of 3 across two levels that each hold more than
    3 trades 3 at both levels, 6 in all, and rests nothing. *)
Example quantity_not_conserved :
  let short_book := OrderBook.process_all OrderBook.init [buy 1 100 1] in
  let deep_book := OrderBook.process_all OrderBook.init [buy 1 100 5; buy 2 99 5] in
  let short_after := OrderBook.init in
  let deep_after :=
    OrderBook.make {[100 := OrderLevel.make [buy 1 100 2];
                     99 := OrderLevel.make [buy 2 99 2]]} ∅ in
  (OrderBook.process short_book (sell 2 100 5) =
     (short_after, Returns [Trade.make 1 2 100 1]) ∧
   trade_total [Trade.make 1 2 100 1] = 1 ∧
   resting_quantity short_after 2 = 0 ∧
   Order.quantity (sell 2 100 5) = 5) ∧
  (OrderBook.process deep_book (sell 3 99 3) =
     (deep_after, Returns [Trade.make 1 3 100 3; Trade.make 2 3 99 3]) ∧
   trade_total [Trade.make 1 3 100 3; Trade.make 2 3 99 3] = 6 ∧
   resting_quantity deep_after 3 = 0 ∧
   Order.quantity (sell 3 99 3) = 3).
Proof. cbv zeta. repeat split; vm_compute; reflexivity. Qed.

(** C4 (evaluation at the failing inputs): the test that decides resting is
    [quantity_left == 0].  A crossing sale with 4 left is not rested; a
    crossing sale with nothing left is rested, with quantity 0, at its own
    price. *)
Example crossing_sell_rested_only_when_nothing_left :
  let book1 := OrderBook.process_all OrderBook.init [buy 1 100 1] in
  let book5 := OrderBook.process_all OrderBook.init [buy 1 100 5] in
  ((OrderBook.execute_sell book1 (sell 2 100 5)).1.2 = 4 ∧
   OrderBook.asks (OrderBook.process book1 (sell 2 100 5)).1 = ∅) ∧
  ((OrderBook.execute_sell book5 (sell 2 100 5)).1.2 = 0 ∧
   OrderBook.asks (OrderBook.process book5 (sell 2 100 5)).1 =
     {[100 := OrderLevel.make [sell 2 100 0]]}).
Proof. repeat split; vm_compute; reflexivity. Qed.

(** C6 (evaluation at the failing input): in the driver's book the best ask
    is 101.  A BUY at 101 crosses; [process] runs no matching, returns [None]
    instead of a list of trades, and the ask at 101 is still there. *)
Example crossing_buy_returns_none :
  OrderBook.calc_min_ask driver_book = Number.Int 101 ∧
  OrderBook.process driver_book (buy 10 101 2) = (driver_book, ReturnsNone).
Proof. split; vm_compute; reflexivity. Qed.

(** C7 (evaluation at the failing input): bids 1 and 2 rest at 100 with
    quantity 5 each, bid 3 at 99 with quantity 5.  A sale of 3 at 99 trades 3
    with bid 1 at 100, leaves bid 2 at 100 untouched, and trades 3 more with
    bid 3 at the worse price 99. *)
Example worse_price_filled_before_better :
  let book := OrderBook.process_all OrderBook.init
                [buy 1 100 5; buy 2 100 5; buy 3 99 5] in
  OrderBook.execute_sell book (sell 4 99 3) =
    ([Trade.make 1 4 100 3; Trade.make 3 4 99 3], 3,
     OrderBook.make {[100 := OrderLevel.make [buy 1 100 2; buy 2 100 5];
                      99 := OrderLevel.make [buy 3 99 2]]} ∅).
Proof. vm_compute. reflexivity. Qed.

(** C8 (as stated, refuted): the sale of 5 in the driver's book does not
    return the three trades listed in the specification, which add up to 4
    only. *)
Example fire_sale_is_not_three_trades :
  (OrderBook.process driver_book executed_sale).2 ≠
    Returns [Trade.make 1 9 100 1; Trade.make 2 9 100 2; Trade.make 3 9 99 1].
Proof. vm_compute. discriminate. Qed.

(** C8 (amended): whatever the ask side, the sale of 5 at 99 against the
    fixture's bids returns four trades: bid 1 for 1 at 100, bid 2 for 2 at
    100, bid 3 for 1 at 99 and, partially, bid 4 for 1 at 99.  Bid 4 stays in
    front of level 99 with quantity 1 and the sale is not rested. *)
Theorem fire_sale_four_trades (asks : gmap Z OrderLevel) :
  OrderBook.process (OrderBook.make fixture_bids asks) executed_sale =
    (OrderBook.make
       {[99 := OrderLevel.make [buy 4 99 1; buy 5 99 3];
         98 := OrderLevel.make [buy 6 98 3]]}
       asks,
     Returns [Trade.make 1 9 100 1; Trade.make 2 9 100 2;
              Trade.make 3 9 99 1; Trade.make 4 9 99 1]).
Proof. vm_compute. reflexivity. Qed.

(** The fixture is the book the driver builds. *)
Lemma driver_book_fixture : driver_book = OrderBook.make fixture_bids fixture_asks.
Proof. vm_compute. reflexivity. Qed.

(** C9 (as stated, refuted): an order with negative price and zero
    quantity, and one with negative quantity, are accepted.  Nothing is
    raised, the order is rested and the book is no longer the empty book. *)
Example invalid_orders_are_rested :
  (OrderBook.process OrderBook.init (buy 1 (-5) 0) =
     (OrderBook.make {[(-5) := OrderLevel.make [buy 1 (-5) 0]]} ∅, Returns []) ∧
   (OrderBook.process OrderBook.init (buy 1 (-5) 0)).1 ≠ OrderBook.init) ∧
  (OrderBook.process OrderBook.init (sell 2 7 (-3)) =
     (OrderBook.make ∅ {[7 := OrderLevel.make [sell 2 7 (-3)]]}, Returns []) ∧
   (OrderBook.process OrderBook.init (sell 2 7 (-3))).1 ≠ OrderBook.init).
Proof.
  repeat split; try (vm_compute; reflexivity).
  - intros Heq. apply (f_equal (λ b, OrderBook.bids b !! (-5))) in Heq.
    vm_compute in Heq. discriminate.
  - intros Heq. apply (f_equal (λ b, OrderBook.asks b !! 7)) in Heq.
    vm_compute in Heq. discriminate.
Qed.

(** C9 (amended): [process] checks neither price nor quantity.  For an
    order with non-positive price or non-positive quantity the call does not
    raise; when the order does not cross it is rested at the level of its
    price like any other order, no trade is returned, and the book has
    changed. *)
Theorem invalid_order_processed_like_any_other (book : OrderBook) (order : Order) :
  Order.price order ≤ 0 ∨ Order.quantity order ≤ 0 →
  (OrderBook.process book order).2 ≠ Raises ∧
  (crosses book order = false →
   OrderBook.process book order = (rested book order, Returns []) ∧
   rested book order ≠ book).
Proof.
  intros _. split; [apply process_never_raises |].
  unfold crosses, rested. intros Hrest.
  destruct (Order.side order) eqn:Hside.
  - rewrite (process_buy _ _ Hside), Hrest. split; [done |].
    destruct book as [bids asks]. simpl. intros Heq. injection Heq as Hbids.
    by apply add_at_changes in Hbids.
  - rewrite (process_sell _ _ Hside), Hrest. split; [done |].
    destruct book as [bids asks]. simpl. intros Heq. injection Heq as Hasks.
    by apply add_at_changes in Hasks.
Qed.

(** The same at a BUY with price -5 and quantity 0 sent to the driver's
    book: it does not cross, it is rested at level -5 of the bids. *)
Lemma invalid_order_processed_like_any_other_witness :
  (Order.price (buy 1 (-5) 0) ≤ 0 ∨ Order.quantity (buy 1 (-5) 0) ≤ 0) ∧
  crosses driver_book (buy 1 (-5) 0) = false ∧
  (OrderBook.process driver_book (buy 1 (-5) 0)).2 ≠ Raises ∧
  OrderBook.process driver_book (buy 1 (-5) 0) =
    (rested driver_book (buy 1 (-5) 0), Returns []) ∧
  rested driver_book (buy 1 (-5) 0) ≠ driver_book.
Proof.
  assert (Hinvalid : Order.price (buy 1 (-5) 0) ≤ 0 ∨ Order.quantity (buy 1 (-5) 0) ≤ 0)
    by (left; simpl; lia).
  assert (Hrest : crosses driver_book (buy 1 (-5) 0) = false)
    by (vm_compute; reflexivity).
  destruct (invalid_order_processed_like_any_other driver_book (buy 1 (-5) 0) Hinvalid)
    as [Hok Hrested].
  destruct (Hrested Hrest) as [Hprocess Hchanged].
  split; [exact Hinvalid |]. split; [exact Hrest |]. split; [exact Hok |].
  split; [exact Hprocess | exact Hchanged].
Defined.

(** C10: an incoming BUY priced at or above the best ask leaves the book
    exactly as it was; the order is not rested, no resting order is touched,
    and the call returns [None]. *)
Theorem crossing_buy_leaves_book_unchanged (book : OrderBook) (order : Order)
    (min_ask : Z) :
  Order.side order = BUY →
  OrderBook.calc_min_ask book = Number.Int min_ask →
  min_ask ≤ Order.price order →
  OrderBook.process book order = (book, ReturnsNone).
Proof.
  intros Hside Hask Hcross. rewrite (process_buy _ _ Hside), Hask. simpl.
  destruct (Z.leb_spec min_ask (Order.price order)) as [_ | Hlt]; [reflexivity | lia].
Qed.

(** The same at a BUY priced 105 sent to the driver's book, whose best ask
    is 101. *)
Lemma crossing_buy_leaves_book_unchanged_witness :
  Order.side (buy 10 105 2) = BUY ∧
  OrderBook.calc_min_ask driver_book = Number.Int 101 ∧
  101 ≤ Order.price (buy 10 105 2) ∧
  OrderBook.process driver_book (buy 10 105 2) = (driver_book, ReturnsNone).
Proof.
  assert (Hask : OrderBook.calc_min_ask driver_book = Number.Int 101)
    by (vm_compute; reflexivity).
  assert (Hcross : 101 ≤ Order.price (buy 10 105 2)) by (simpl; lia).
  split; [reflexivity |]. split; [exact Hask |]. split; [exact Hcross |].
  exact (crossing_buy_leaves_book_unchanged driver_book (buy 10 105 2) 101
           eq_refl Hask Hcross).
Defined.

(** ** Further properties of [OrderLevel] *)

Lemma depth_cons (order : Order) (queue : list Order) :
  OrderLevel.depth (OrderLevel.make (order :: queue)) =
    Order.quantity order + OrderLevel.depth (OrderLevel.make queue).
Proof. reflexivity. Qed.

(** X1: [add] then [depth]: the depth of a level grows by the quantity of the
    order appended to it. *)
Theorem depth_after_add (level : OrderLevel) (order : Order) :
  OrderLevel.depth (OrderLevel.add level order) =
    OrderLevel.depth level + Order.quantity order.
Proof.
  destruct level as [queue]. unfold OrderLevel.add, OrderLevel.depth. simpl.
  induction queue as [| head rest IH]; simpl; lia.
Qed.

(** The balance of one call on one level. *)
Lemma level_depth_balance (level : OrderLevel) (seller at_price q : Z) :
  OrderLevel.depth level =
    OrderLevel.depth (OrderLevel.execute_sell level seller at_price q).2 +
    trade_total (OrderLevel.execute_sell level seller at_price q).1.1.
Proof.
  destruct level as [queue]. unfold OrderLevel.execute_sell. simpl.
  revert q. induction queue as [| head rest IH]; intros q; [reflexivity |].
  simpl. destruct (q <? Order.quantity head).
  - simpl. rewrite !depth_cons. simpl. lia.
  - specialize (IH (q - Order.quantity head)).
    destruct (OrderLevel.execute_sell_loop rest seller at_price (q - Order.quantity head))
      as [[trades remaining] queue'].
    simpl in *. rewrite depth_cons. lia.
Qed.

(** X2: whatever the quantities, what [execute_sell] takes off a level is
    what its trades add up to: depth before = depth after + traded. *)
Theorem level_depth_conserved (level : OrderLevel) (seller at_price q : Z) :
  OrderLevel.depth level =
    OrderLevel.depth (OrderLevel.execute_sell level seller at_price q).2 +
    trade_total (OrderLevel.execute_sell level seller at_price q).1.1.
Proof. apply level_depth_balance. Qed.

(** X3: a call of [execute_sell] ends in one of two ways.  Either the level
    keeps orders, and then the trades add up to the whole incoming quantity;
    or the level is left empty, and then the trades add up to the depth it had
    and the returned quantity is the incoming one less that depth. *)
Theorem level_fills_or_is_exhausted (level : OrderLevel) (seller at_price q : Z) :
  let result := OrderLevel.execute_sell level seller at_price q in
  (OrderLevel.orders result.2 ≠ [] ∧ trade_total result.1.1 = q) ∨
  (OrderLevel.orders result.2 = [] ∧
   trade_total result.1.1 = OrderLevel.depth level ∧
   result.1.2 = q - OrderLevel.depth level).
Proof.
  destruct level as [queue]. unfold OrderLevel.execute_sell. simpl.
  revert q. induction queue as [| head rest IH]; intros q.
  - right. simpl. unfold OrderLevel.depth. simpl. repeat split; lia.
  - simpl. destruct (q <? Order.quantity head).
    + left. simpl. split; [done | lia].
    + specialize (IH (q - Order.quantity head)).
      destruct (OrderLevel.execute_sell_loop rest seller at_price (q - Order.quantity head))
        as [[trades remaining] queue'].
      simpl in *. rewrite depth_cons.
      destruct IH as [[Hkept Htotal] | (Hempty & Htotal & Hleft)].
      * left. split; [done | lia].
      * right. repeat split; [done | lia | lia].
Qed.

(** X4: [execute_sell] never leaves an order of quantity zero or less in a
    level whose orders all had a positive quantity, whatever comes in. *)
Theorem level_keeps_positive (level : OrderLevel) (seller at_price q : Z) :
  Forall (λ o, 0 < Order.quantity o) (OrderLevel.orders level) →
  Forall (λ o, 0 < Order.quantity o)
    (OrderLevel.orders (OrderLevel.execute_sell level seller at_price q).2).
Proof.
  destruct level as [queue]. unfold OrderLevel.execute_sell. simpl.
  revert q. induction queue as [| head rest IH]; intros q Hpos; [constructor |].
  apply Forall_cons in Hpos as [Hhead Hrest].
  simpl. destruct (Z.ltb_spec q (Order.quantity head)) as [Hlt | Hge].
  - simpl. constructor; [simpl; lia | done].
  - specialize (IH (q - Order.quantity head) Hrest).
    by destruct (OrderLevel.execute_sell_loop rest seller at_price (q - Order.quantity head))
      as [[trades remaining] queue'].
Qed.

Lemma level_keeps_positive_witness :
  Forall (λ o, 0 < Order.quantity o) [buy 1 100 5; buy 2 100 4] ∧
  Forall (λ o, 0 < Order.quantity o)
    (OrderLevel.orders
       (OrderLevel.execute_sell (OrderLevel.make [buy 1 100 5; buy 2 100 4]) 9 100 7).2).
Proof.
  assert (Hpos : Forall (λ o, 0 < Order.quantity o) [buy 1 100 5; buy 2 100 4])
    by (repeat constructor).
  split; [exact Hpos |].
  exact (level_keeps_positive (OrderLevel.make [buy 1 100 5; buy 2 100 4]) 9 100 7 Hpos).
Defined.

(** X5: with a non-negative incoming quantity and positive resting
    quantities, no trade of a level has a negative quantity, and the returned
    quantity lies between zero and the incoming quantity. *)
Theorem level_trade_bounds (level : OrderLevel) (seller at_price q : Z) :
  0 ≤ q →
  Forall (λ o, 0 < Order.quantity o) (OrderLevel.orders level) →
  Forall (λ t, 0 ≤ Trade.quantity t)
    (OrderLevel.execute_sell level seller at_price q).1.1 ∧
  0 ≤ (OrderLevel.execute_sell level seller at_price q).1.2 ≤ q.
Proof.
  destruct level as [queue]. unfold OrderLevel.execute_sell. simpl.
  revert q. induction queue as [| head rest IH]; intros q Hq Hpos.
  - simpl. split; [constructor | lia].
  - apply Forall_cons in Hpos as [Hhead Hrest].
    simpl. destruct (Z.ltb_spec q (Order.quantity head)) as [Hlt | Hge].
    + simpl. split; [repeat constructor; simpl; lia | lia].
    + assert (Hq' : 0 ≤ q - Order.quantity head) by lia.
      specialize (IH (q - Order.quantity head) Hq' Hrest).
      destruct (OrderLevel.execute_sell_loop rest seller at_price (q - Order.quantity head))
        as [[trades remaining] queue'].
      simpl in *. destruct IH as [Htrades Hbounds].
      split; [constructor; [simpl; lia | done] | lia].
Qed.

Lemma level_trade_bounds_witness :
  0 ≤ 7 ∧
  Forall (λ o, 0 < Order.quantity o) [buy 1 100 5; buy 2 100 4] ∧
  Forall (λ t, 0 ≤ Trade.quantity t)
    (OrderLevel.execute_sell (OrderLevel.make [buy 1 100 5; buy 2 100 4]) 9 100 7).1.1 ∧
  0 ≤ (OrderLevel.execute_sell (OrderLevel.make [buy 1 100 5; buy 2 100 4]) 9 100 7).1.2 ≤ 7.
Proof.
  assert (Hq : 0 ≤ 7) by lia.
  assert (Hpos : Forall (λ o, 0 < Order.quantity o) [buy 1 100 5; buy 2 100 4])
    by (repeat constructor).
  split; [exact Hq |]. split; [exact Hpos |].
  exact (level_trade_bounds (OrderLevel.make [buy 1 100 5; buy 2 100 4]) 9 100 7 Hq Hpos).
Defined.

(** X6: an incoming quantity that covers the depth of a level of
    non-negative orders sweeps the level: one trade per resting order, for its
    whole quantity and in queue order, the level is left empty and the
    returned quantity is the incoming one less the depth. *)
Theorem level_sweep (level : OrderLevel) (seller at_price q : Z) :
  Forall (λ o, 0 ≤ Order.quantity o) (OrderLevel.orders level) →
  OrderLevel.depth level ≤ q →
  OrderLevel.execute_sell level seller at_price q =
    ((λ o, Trade.make (Order.id o) seller at_price (Order.quantity o))
       <$> OrderLevel.orders level,
     q - OrderLevel.depth level,
     OrderLevel.init).
Proof.
  destruct level as [queue]. unfold OrderLevel.execute_sell. simpl.
  revert q. induction queue as [| head rest IH]; intros q Hpos Hdepth.
  - simpl. unfold OrderLevel.depth. simpl. do 2 f_equal. lia.
  - apply Forall_cons in Hpos as [Hhead Hrest].
    rewrite depth_cons in Hdepth.
    assert (Hrest_depth : 0 ≤ OrderLevel.depth (OrderLevel.make rest)).
    { clear -Hrest. unfold OrderLevel.depth. simpl.
      induction Hrest as [| o l Ho _ IHl]; simpl; lia. }
    simpl. destruct (Z.ltb_spec q (Order.quantity head)) as [Hlt | Hge]; [lia |].
    assert (Hdepth' : OrderLevel.depth (OrderLevel.make rest) ≤ q - Order.quantity head)
      by lia.
    specialize (IH (q - Order.quantity head) Hrest Hdepth').
    destruct (OrderLevel.execute_sell_loop rest seller at_price (q - Order.quantity head))
      as [[trades remaining] queue'].
    injection IH as -> -> ->. rewrite depth_cons. csimpl. do 2 f_equal. lia.
Qed.

Lemma level_sweep_witness :
  Forall (λ o, 0 ≤ Order.quantity o) [buy 1 100 5; buy 2 100 4] ∧
  OrderLevel.depth (OrderLevel.make [buy 1 100 5; buy 2 100 4]) ≤ 12 ∧
  OrderLevel.execute_sell (OrderLevel.make [buy 1 100 5; buy 2 100 4]) 9 100 12 =
    ([Trade.make 1 9 100 5; Trade.make 2 9 100 4], 3, OrderLevel.init).
Proof.
  assert (Hpos : Forall (λ o, 0 ≤ Order.quantity o) [buy 1 100 5; buy 2 100 4])
    by (repeat constructor; simpl; lia).
  assert (Hdepth : OrderLevel.depth (OrderLevel.make [buy 1 100 5; buy 2 100 4]) ≤ 12)
    by (vm_compute; discriminate).
  split; [exact Hpos |]. split; [exact Hdepth |].
  exact (level_sweep (OrderLevel.make [buy 1 100 5; buy 2 100 4]) 9 100 12 Hpos Hdepth).
Defined.

(** X7: [execute_sell] serves a level from its head and keeps the order of
    the queue: the buyers of its trades are the identities of a prefix of the
    queue, and the orders left are, identity by identity, a suffix of it. *)
Theorem level_served_in_arrival_order (level : OrderLevel) (seller at_price q : Z) :
  let result := OrderLevel.execute_sell level seller at_price q in
  (Trade.buyer <$> result.1.1) `prefix_of` (Order.id <$> OrderLevel.orders level) ∧
  (Order.id <$> OrderLevel.orders result.2) `suffix_of`
    (Order.id <$> OrderLevel.orders level).
Proof.
  destruct level as [queue]. unfold OrderLevel.execute_sell. simpl.
  revert q. induction queue as [| head rest IH]; intros q; [done |].
  simpl. destruct (q <? Order.quantity head).
  - simpl. split; [| done]. by apply prefix_cons, prefix_nil.
  - specialize (IH (q - Order.quantity head)).
    destruct (OrderLevel.execute_sell_loop rest seller at_price (q - Order.quantity head))
      as [[trades remaining] queue'].
    simpl in *. destruct IH as [Hprefix Hsuffix]. split.
    + by apply prefix_cons.
    + by apply suffix_cons_r.
Qed.

(** ** Further properties of [OrderBook.execute_sell] *)

Lemma trade_total_app (xs ys : list Trade) :
  trade_total (xs ++ ys) = trade_total xs + trade_total ys.
Proof. unfold trade_total. induction xs as [| t xs IH]; simpl; lia. Qed.

Lemma side_depth_delete (d : gmap Z OrderLevel) (k : Z) (level : OrderLevel) :
  d !! k = Some level →
  side_depth d = OrderLevel.depth level + side_depth (delete k d).
Proof.
  intros Hk. unfold side_depth.
  apply (map_fold_delete_L (λ _ level acc, OrderLevel.depth level + acc)); [| done].
  intros. lia.
Qed.

Lemma side_depth_insert_fresh (d : gmap Z OrderLevel) (k : Z) (level : OrderLevel) :
  d !! k = None →
  side_depth (<[k := level]> d) = OrderLevel.depth level + side_depth d.
Proof.
  intros Hk. unfold side_depth.
  apply (map_fold_insert_L (λ _ level acc, OrderLevel.depth level + acc)); [| done].
  intros. lia.
Qed.

Lemma side_depth_replace (d : gmap Z OrderLevel) (k : Z) (level level' : OrderLevel) :
  d !! k = Some level →
  side_depth (<[k := level']> d) =
    side_depth d - OrderLevel.depth level + OrderLevel.depth level'.
Proof.
  intros Hk. rewrite <- insert_delete_eq.
  rewrite side_depth_insert_fresh by apply lookup_delete_eq.
  rewrite (side_depth_delete d k level Hk). lia.
Qed.

(** The dictionary after one level has been served: the level is put back,
    or its key is deleted when its deque is empty. *)
Lemma pruned_lookup (price : Z) (level' : OrderLevel) (bids : gmap Z OrderLevel) (k : Z) :
  match OrderLevel.orders level' with
  | [] => delete price bids
  | _ :: _ => <[price := level']> bids
  end !! k =
  if decide (price = k)
  then match OrderLevel.orders level' with [] => None | _ :: _ => Some level' end
  else bids !! k.
Proof.
  destruct (OrderLevel.orders level'); [rewrite lookup_delete | rewrite lookup_insert];
    by case_decide.
Qed.

Lemma level_of_empty (seller at_price q : Z) :
  OrderLevel.execute_sell OrderLevel.init seller at_price q = ([], q, OrderLevel.init).
Proof. reflexivity. Qed.

(** Keys that are not among the levels served are left as they are. *)
Lemma book_loop_untouched (levels : list Z) (seller : Z) (bids : gmap Z OrderLevel)
    (q k : Z) :
  k ∉ levels →
  (OrderBook.execute_sell_loop levels seller bids q).2 !! k = bids !! k.
Proof.
  revert bids q. induction levels as [| price levels IH]; intros bids q Hk; [done |].
  apply not_elem_of_cons in Hk as [Hne Hk].
  rewrite book_loop_cons. cbv zeta.
  destruct (OrderLevel.execute_sell (default OrderLevel.init (bids !! price)) seller price q)
    as [[trades q'] level'].
  destruct (q' =? 0); simpl.
  - rewrite pruned_lookup. by case_decide.
  - match goal with
    | |- context [OrderBook.execute_sell_loop levels seller ?b q'] =>
        specialize (IH b q' Hk);
        destruct (OrderBook.execute_sell_loop levels seller b q') as [[more remaining] bids'']
    end.
    simpl in *. rewrite IH, pruned_lookup. by case_decide.
Qed.

(** A property of levels that [OrderLevel.execute_sell] keeps on the levels
    it does not empty is kept by the loop on the whole dictionary. *)
Lemma book_loop_map_Forall (P : Z → OrderLevel → Prop) (levels : list Z) (seller : Z)
    (bids : gmap Z OrderLevel) (q : Z) :
  (∀ k level q',
     P k level →
     OrderLevel.orders (OrderLevel.execute_sell level seller k q').2 ≠ [] →
     P k (OrderLevel.execute_sell level seller k q').2) →
  map_Forall P bids →
  map_Forall P (OrderBook.execute_sell_loop levels seller bids q).2.
Proof.
  intros Hstep. revert bids q.
  induction levels as [| price levels IH]; intros bids q Hbids; [done |].
  rewrite book_loop_cons. cbv zeta.
  assert (Hnext : ∀ level',
    level' = (OrderLevel.execute_sell (default OrderLevel.init (bids !! price))
                seller price q).2 →
    map_Forall P
      match OrderLevel.orders level' with
      | [] => delete price bids
      | _ :: _ => <[price := level']> bids
      end).
  { intros level' Hlevel' k x Hkx. rewrite pruned_lookup in Hkx.
    case_decide as Hk; [| by apply Hbids]. subst k.
    destruct (OrderLevel.orders level') as [| o rest] eqn:Hqueue; [done |].
    injection Hkx as <-.
    destruct (bids !! price) as [level |] eqn:Hprice.
    - subst level'. change (default OrderLevel.init (Some level)) with level in *.
      apply Hstep; [by apply Hbids |]. by rewrite Hqueue.
    - subst level'. simpl in Hqueue. done. }
  destruct (OrderLevel.execute_sell (default OrderLevel.init (bids !! price)) seller price q)
    as [[trades q'] level'].
  specialize (Hnext level' eq_refl).
  destruct (q' =? 0); simpl; [done |].
  match goal with
  | |- context [OrderBook.execute_sell_loop levels seller ?b q'] =>
      specialize (IH b q' Hnext);
      by destruct (OrderBook.execute_sell_loop levels seller b q') as [[more remaining] bids'']
  end.
Qed.

(** What the loop takes off the bid side is what its trades add up to. *)
Lemma book_loop_depth_conserved (levels : list Z) (seller : Z)
    (bids : gmap Z OrderLevel) (q : Z) :
  side_depth bids =
    side_depth (OrderBook.execute_sell_loop levels seller bids q).2 +
    trade_total (OrderBook.execute_sell_loop levels seller bids q).1.1.
Proof.
  revert bids q. induction levels as [| price levels IH]; intros bids q;
    [simpl; unfold trade_total; simpl; lia |].
  rewrite book_loop_cons. cbv zeta.
  assert (Hnext : ∀ trades level',
    OrderLevel.depth (default OrderLevel.init (bids !! price)) =
      OrderLevel.depth level' + trade_total trades →
    (bids !! price = None → OrderLevel.orders level' = []) →
    side_depth bids =
      side_depth
        match OrderLevel.orders level' with
        | [] => delete price bids
        | _ :: _ => <[price := level']> bids
        end + trade_total trades).
  { intros trades [queue'] Hdepth Hnone.
    destruct (bids !! price) as [level |] eqn:Hprice; simpl in *.
    - destruct queue' as [| o rest].
      + rewrite (side_depth_delete bids price level Hprice).
        unfold OrderLevel.depth at 2 in Hdepth. simpl in Hdepth. lia.
      + rewrite (side_depth_replace bids price level _ Hprice). lia.
    - rewrite (Hnone eq_refl) in *. rewrite delete_id by done.
      unfold OrderLevel.depth in Hdepth. simpl in Hdepth. lia. }
  pose proof (level_depth_balance (default OrderLevel.init (bids !! price))
    seller price q) as Hlevel.
  assert (Hnone : bids !! price = None →
    OrderLevel.orders
      (OrderLevel.execute_sell (default OrderLevel.init (bids !! price)) seller price q).2
    = []) by (by intros ->).
  destruct (OrderLevel.execute_sell (default OrderLevel.init (bids !! price)) seller price q)
    as [[trades q'] level'].
  simpl in Hlevel, Hnone. specialize (Hnext trades level' Hlevel Hnone).
  destruct (q' =? 0); simpl; [done |].
  match goal with
  | |- context [OrderBook.execute_sell_loop levels seller ?b q'] =>
      specialize (IH b q');
      destruct (OrderBook.execute_sell_loop levels seller b q') as [[more remaining] bids'']
  end.
  simpl in *. rewrite trade_total_app. lia.
Qed.

(** A property of orders that survives a partial fill survives
    [OrderLevel.execute_sell]. *)
Lemma level_keeps_Forall (Q : Order → Prop) (level : OrderLevel) (seller at_price q : Z) :
  (∀ o q', Q o → q' < Order.quantity o →
           Q (Order.set_quantity (Order.quantity o - q') o)) →
  Forall Q (OrderLevel.orders level) →
  Forall Q (OrderLevel.orders (OrderLevel.execute_sell level seller at_price q).2).
Proof.
  intros Hpartial. destruct level as [queue]. unfold OrderLevel.execute_sell. simpl.
  revert q. induction queue as [| head rest IH]; intros q Hall; [constructor |].
  apply Forall_cons in Hall as [Hhead Hrest].
  simpl. destruct (Z.ltb_spec q (Order.quantity head)) as [Hlt | Hge].
  - simpl. constructor; [by apply Hpartial | done].
  - specialize (IH (q - Order.quantity head) Hrest).
    by destruct (OrderLevel.execute_sell_loop rest seller at_price (q - Order.quantity head))
      as [[trades remaining] queue'].
Qed.

Lemma execute_sell_keeps (P : Z → OrderLevel → Prop) (book : OrderBook) (order : Order) :
  (∀ k level q',
     P k level →
     OrderLevel.orders (OrderLevel.execute_sell level (Order.id order) k q').2 ≠ [] →
     P k (OrderLevel.execute_sell level (Order.id order) k q').2) →
  map_Forall P (OrderBook.bids book) →
  map_Forall P (OrderBook.bids (OrderBook.execute_sell book order).2).
Proof.
  intros Hstep Hbids. unfold OrderBook.execute_sell.
  pose proof (book_loop_map_Forall P
    (OrderBook.levels_from (OrderBook.bids book) (Order.price order))
    (Order.id order) (OrderBook.bids book) (Order.quantity order) Hstep Hbids) as Hloop.
  by destruct (OrderBook.execute_sell_loop _ _ _ _) as [[trades remaining] bids'].
Qed.

Lemma add_at_map_Forall (P : Z → OrderLevel → Prop) (d : gmap Z OrderLevel)
    (p : Z) (order : Order) :
  P p (OrderLevel.add (default OrderLevel.init (d !! p)) order) →
  map_Forall P d → map_Forall P (OrderBook.add_at d p order).
Proof. intros Hnew Hd. unfold OrderBook.add_at. by apply map_Forall_insert_2. Qed.

Lemma add_at_no_empty_level (d : gmap Z OrderLevel) (p : Z) (order : Order) :
  no_empty_level d → no_empty_level (OrderBook.add_at d p order).
Proof.
  apply add_at_map_Forall. simpl.
  by destruct (OrderLevel.orders (default OrderLevel.init (d !! p))).
Qed.

Lemma add_at_rests_at_own_price (side : Side) (d : gmap Z OrderLevel) (order : Order) :
  Order.side order = side →
  rests_at_own_price side d →
  rests_at_own_price side (OrderBook.add_at d (Order.price order) order).
Proof.
  intros Hside Hd. apply add_at_map_Forall; [| done]. simpl.
  apply Forall_app. split; [| by repeat constructor].
  destruct (d !! Order.price order) as [level |] eqn:Hlevel; [| constructor].
  exact (Hd _ _ Hlevel).
Qed.

Lemma execute_sell_no_empty_level (book : OrderBook) (order : Order) :
  no_empty_level (OrderBook.bids book) →
  no_empty_level (OrderBook.bids (OrderBook.execute_sell book order).2).
Proof. apply execute_sell_keeps. intros k level q' _ Hne. exact Hne. Qed.

Lemma execute_sell_rests_at_own_price (book : OrderBook) (order : Order) :
  rests_at_own_price BUY (OrderBook.bids book) →
  rests_at_own_price BUY (OrderBook.bids (OrderBook.execute_sell book order).2).
Proof.
  apply execute_sell_keeps. intros k level q' Hlevel _.
  apply level_keeps_Forall; [| done]. by intros o q'' [? ?] _.
Qed.


(** One call of [process] keeps the shape of the book. *)
Lemma process_keeps_well_formed (book : OrderBook) (order : Order) :
  well_formed book → well_formed (OrderBook.process book order).1.
Proof.
  intros (Hb & Ha & Hpb & Hpa).
  destruct (Order.side order) eqn:Hside.
  - rewrite (process_buy _ _ Hside).
    destruct (Number.leb _ _); simpl; [done |].
    repeat split; simpl; [by apply add_at_no_empty_level | done | | done].
    by apply add_at_rests_at_own_price.
  - rewrite (process_sell _ _ Hside).
    destruct (Number.leb _ _); simpl.
    + pose proof (execute_sell_no_empty_level book order Hb) as Hb'.
      pose proof (execute_sell_rests_at_own_price book order Hpb) as Hpb'.
      pose proof (execute_sell_frame book order) as [Hasks _].
      destruct (OrderBook.execute_sell book order) as [[trades quantity_left] book'].
      simpl in *. destruct (quantity_left =? 0); simpl.
      * rewrite Hasks. repeat split; simpl; [done | by apply add_at_no_empty_level | done |].
        by apply (add_at_rests_at_own_price SELL _ (Order.set_quantity quantity_left order)).
      * unfold well_formed. rewrite Hasks. done.
    + repeat split; simpl; [done | by apply add_at_no_empty_level | done |].
      by apply add_at_rests_at_own_price.
Qed.

(** ** Further properties of [OrderBook] *)

(** X8: [calc_max_bid] returns minus infinity exactly on an empty bid side,
    and the integer [m] exactly when [m] is the greatest bid price; it never
    returns plus infinity. *)
Theorem best_bid_characterised (book : OrderBook) (m : Z) :
  (OrderBook.calc_max_bid book = Number.NegInf ↔ OrderBook.bids book = ∅) ∧
  (OrderBook.calc_max_bid book = Number.Int m ↔
     is_Some (OrderBook.bids book !! m) ∧
     ∀ k, is_Some (OrderBook.bids book !! k) → k ≤ m) ∧
  OrderBook.calc_max_bid book ≠ Number.PosInf.
Proof.
  destruct (calc_max_bid_spec book) as [[Hempty Heq] | (m0 & Heq & Hin & Hup)];
    rewrite Heq.
  - split; [done |]. split; [| done]. split; [done |].
    intros [[? Hm] _]. rewrite Hempty in Hm. done.
  - split; [| split; [| done]].
    + split; [done |]. intros Hempty. rewrite Hempty in Hin. by destruct Hin.
    + split.
      * intros [= <-]. by split.
      * intros [Hm Hupm]. f_equal.
        specialize (Hup _ Hm). specialize (Hupm _ Hin). lia.
Qed.

(** X9: [calc_min_ask] returns plus infinity exactly on an empty ask side,
    and the integer [m] exactly when [m] is the least ask price; it never
    returns minus infinity. *)
Theorem best_ask_characterised (book : OrderBook) (m : Z) :
  (OrderBook.calc_min_ask book = Number.PosInf ↔ OrderBook.asks book = ∅) ∧
  (OrderBook.calc_min_ask book = Number.Int m ↔
     is_Some (OrderBook.asks book !! m) ∧
     ∀ k, is_Some (OrderBook.asks book !! k) → m ≤ k) ∧
  OrderBook.calc_min_ask book ≠ Number.NegInf.
Proof.
  destruct (calc_min_ask_spec book) as [[Hempty Heq] | (m0 & Heq & Hin & Hlow)];
    rewrite Heq.
  - split; [done |]. split; [| done]. split; [done |].
    intros [[? Hm] _]. rewrite Hempty in Hm. done.
  - split; [| split; [| done]].
    + split; [done |]. intros Hempty. rewrite Hempty in Hin. by destruct Hin.
    + split.
      * intros [= <-]. by split.
      * intros [Hm Hlowm]. f_equal.
        specialize (Hlow _ Hm). specialize (Hlowm _ Hin). lia.
Qed.

(** X10: the list of levels [execute_sell] walks holds exactly the keys of
    the dictionary at or above the limit, each once, from the highest price
    down. *)
Theorem sale_levels_characterised (d : gmap Z OrderLevel) (p : Z) :
  (∀ k, k ∈ OrderBook.levels_from d p ↔ is_Some (d !! k) ∧ p ≤ k) ∧
  StronglySorted (λ x y, y < x) (OrderBook.levels_from d p).
Proof.
  split; [intros k; apply elem_of_levels_from | apply levels_from_strictly_descending].
Qed.

(** X11: the last case of the [match] in [process], the one that raises, is
    never reached: for every book and every order one of the four guarded
    cases applies. *)
Theorem impossible_case_unreachable (book : OrderBook) (order : Order) :
  (OrderBook.process book order).2 ≠ Raises.
Proof.
  destruct (Order.side order) eqn:Hside.
  - rewrite (process_buy _ _ Hside). by destruct (Number.leb _ _).
  - rewrite (process_sell _ _ Hside). destruct (Number.leb _ _); [| done].
    destruct (OrderBook.execute_sell book order) as [[trades quantity_left] book'].
    by destruct (quantity_left =? 0).
Qed.



(** X13: [execute_sell] leaves the asks alone, leaves every bid level priced
    below the limit of the sale exactly as it was, and creates no bid level. *)
Theorem sale_touches_only_levels_at_or_above_limit (book : OrderBook) (order : Order) :
  let book' := (OrderBook.execute_sell book order).2 in
  OrderBook.asks book' = OrderBook.asks book ∧
  (∀ k, k < Order.price order →
        OrderBook.bids book' !! k = OrderBook.bids book !! k) ∧
  (∀ k, is_Some (OrderBook.bids book' !! k) → is_Some (OrderBook.bids book !! k)).
Proof.
  cbv zeta. pose proof (execute_sell_frame book order) as [Hasks Hdom].
  split; [exact Hasks |]. split; [| exact Hdom].
  intros k Hk. unfold OrderBook.execute_sell.
  pose proof (book_loop_untouched
    (OrderBook.levels_from (OrderBook.bids book) (Order.price order))
    (Order.id order) (OrderBook.bids book) (Order.quantity order) k) as Hsame.
  destruct (OrderBook.execute_sell_loop _ _ _ _) as [[trades remaining] bids'].
  simpl in *. apply Hsame. rewrite elem_of_levels_from. lia.
Qed.

(** X14: the shape of the book is an invariant of [process]: from a book
    with no empty level in which every order rests on its own side under its
    own limit price, any sequence of orders leads to such a book. *)
Theorem well_formed_kept (book : OrderBook) (orders : list Order) :
  well_formed book → well_formed (OrderBook.process_all book orders).
Proof.
  revert book. induction orders as [| order orders IH]; intros book Hbook; [done |].
  unfold OrderBook.process_all. simpl. apply IH. by apply process_keeps_well_formed.
Qed.

Lemma well_formed_kept_witness :
  well_formed OrderBook.init ∧
  well_formed (OrderBook.process_all OrderBook.init (driver_orders ++ [executed_sale])).
Proof.
  assert (Hinit : well_formed OrderBook.init).
  { unfold well_formed, no_empty_level, rests_at_own_price. simpl.
    repeat split; apply map_Forall_empty. }
  split; [exact Hinit |].
  exact (well_formed_kept OrderBook.init (driver_orders ++ [executed_sale]) Hinit).
Defined.



Lemma asks_after_buy (book : OrderBook) (order : Order) :
  Order.side order = BUY →
  OrderBook.asks (OrderBook.process book order).1 = OrderBook.asks book.
Proof.
  intros Hside. rewrite (process_buy _ _ Hside). by destruct (Number.leb _ _).
Qed.

Lemma buy_outcome (book : OrderBook) (order : Order) :
  Order.side order = BUY →
  (OrderBook.process book order).2 = ReturnsNone ∨
  (OrderBook.process book order).2 = Returns [].
Proof.
  intros Hside. rewrite (process_buy _ _ Hside). destruct (Number.leb _ _); auto.
Qed.

Lemma add_at_grows (d : gmap Z OrderLevel) (p : Z) (order : Order)
    (k : Z) (level : OrderLevel) :
  d !! k = Some level →
  ∃ level', OrderBook.add_at d p order !! k = Some level' ∧
            OrderLevel.orders level `prefix_of` OrderLevel.orders level'.
Proof.
  intros Hk. unfold OrderBook.add_at. rewrite lookup_insert. case_decide as Hp.
  - subst k. rewrite Hk. simpl. eexists. split; [done |]. simpl.
    by apply prefix_app_r.
  - exists level. by split.
Qed.

(** X16: a BUY order never trades: [process] returns [None] or the empty
    list for it, and the ask side is left exactly as it was. *)
Theorem buy_never_trades (book : OrderBook) (order : Order) :
  Order.side order = BUY →
  ((OrderBook.process book order).2 = ReturnsNone ∨
   (OrderBook.process book order).2 = Returns []) ∧
  OrderBook.asks (OrderBook.process book order).1 = OrderBook.asks book.
Proof.
  intros Hside. rewrite (process_buy _ _ Hside).
  destruct (Number.leb _ _); simpl; split; auto.
Qed.

Lemma buy_never_trades_witness :
  Order.side (buy 10 105 2) = BUY ∧
  ((OrderBook.process driver_book (buy 10 105 2)).2 = ReturnsNone ∨
   (OrderBook.process driver_book (buy 10 105 2)).2 = Returns []) ∧
  OrderBook.asks (OrderBook.process driver_book (buy 10 105 2)).1 =
    OrderBook.asks driver_book.
Proof.
  split; [reflexivity |].
  exact (buy_never_trades driver_book (buy 10 105 2) eq_refl).
Defined.

(** X17: resting asks are never consumed: after any call of [process] every
    ask level is still there and its queue starts with the queue it had. *)
Theorem asks_only_grow (book : OrderBook) (order : Order) (k : Z) (level : OrderLevel) :
  OrderBook.asks book !! k = Some level →
  ∃ level', OrderBook.asks (OrderBook.process book order).1 !! k = Some level' ∧
            OrderLevel.orders level `prefix_of` OrderLevel.orders level'.
Proof.
  intros Hk. destruct (Order.side order) eqn:Hside.
  - pose proof (asks_after_buy book order Hside) as Hasks.
    rewrite Hasks. by exists level.
  - rewrite (process_sell _ _ Hside). destruct (Number.leb _ _); simpl.
    + pose proof (execute_sell_frame book order) as [Hasks _].
      destruct (OrderBook.execute_sell book order) as [[trades quantity_left] book'].
      simpl in *. destruct (quantity_left =? 0); simpl; rewrite Hasks.
      * by apply add_at_grows.
      * by exists level.
    + by apply add_at_grows.
Qed.

Lemma asks_only_grow_witness :
  OrderBook.asks driver_book !! 101 = Some (OrderLevel.make [sell 7 101 3]) ∧
  ∃ level', OrderBook.asks (OrderBook.process driver_book (sell 11 101 4)).1 !! 101
              = Some level' ∧
            [sell 7 101 3] `prefix_of` OrderLevel.orders level'.
Proof.
  assert (Hk : OrderBook.asks driver_book !! 101 = Some (OrderLevel.make [sell 7 101 3]))
    by (vm_compute; reflexivity).
  split; [exact Hk |].
  exact (asks_only_grow driver_book (sell 11 101 4) 101 _ Hk).
Defined.

Lemma execute_sell_sellers (book : OrderBook) (order : Order) :
  Forall (λ t, Trade.seller t = Order.id order)
    (OrderBook.execute_sell book order).1.1.
Proof.
  unfold OrderBook.execute_sell.
  pose proof (book_loop_trade_prices
    (OrderBook.levels_from (OrderBook.bids book) (Order.price order))
    (Order.id order) (OrderBook.bids book) (Order.quantity order)) as Hin.
  destruct (OrderBook.execute_sell_loop _ _ _ _) as [[trades remaining] bids'].
  simpl in *. eapply Forall_impl; [exact Hin |]. by intros t [_ ?].
Qed.

(** What [process] does with a SELL, in terms of [execute_sell]. *)
Lemma process_sell_result (book : OrderBook) (order : Order) :
  Order.side order = SELL →
  (OrderBook.process book order).2 = Returns (OrderBook.execute_sell book order).1.1 ∧
  OrderBook.bids (OrderBook.process book order).1 =
    OrderBook.bids (OrderBook.execute_sell book order).2
  ∨
  (OrderBook.process book order).2 = Returns [] ∧
  OrderBook.bids (OrderBook.process book order).1 = OrderBook.bids book.
Proof.
  intros Hside. rewrite (process_sell _ _ Hside).
  destruct (Number.leb _ _); simpl; [left | by right].
  destruct (OrderBook.execute_sell book order) as [[trades quantity_left] book'].
  by destruct (quantity_left =? 0).
Qed.

(** X18: every trade [process] returns names the incoming order as seller,
    is priced at a bid level of the book, at or above the limit of the order,
    and the trades come from the highest price down. *)
Theorem trades_respect_limit (book : OrderBook) (order : Order) (trades : list Trade) :
  (OrderBook.process book order).2 = Returns trades →
  Forall (λ t, Trade.seller t = Order.id order ∧
               Order.price order ≤ Trade.price t ∧
               is_Some (OrderBook.bids book !! Trade.price t)) trades ∧
  StronglySorted OrderBook.descending (Trade.price <$> trades).
Proof.
  intros Hreturns.
  assert (Hcases : trades = [] ∨ trades = (OrderBook.execute_sell book order).1.1).
  { destruct (Order.side order) eqn:Hside.
    - pose proof (buy_outcome book order Hside) as [Hnone | Hnil];
        rewrite Hreturns in *; [done | left; congruence].
    - destruct (process_sell_result book order Hside) as [[Hsome _] | [Hnil _]];
        rewrite Hreturns in *; [right | left]; congruence. }
  destruct Hcases as [-> | ->]; [split; constructor |].
  pose proof (execute_sell_trade_prices book order) as [Hprices Hsorted].
  pose proof (execute_sell_sellers book order) as Hsellers.
  split; [| exact Hsorted].
  rewrite Forall_forall in Hprices, Hsellers |- *. intros t Ht.
  destruct (Hprices t Ht) as [Hlevel Hlimit]. by rewrite (Hsellers t Ht).
Qed.

Lemma trades_respect_limit_witness :
  let trades := [Trade.make 1 9 100 1; Trade.make 2 9 100 2;
                 Trade.make 3 9 99 1; Trade.make 4 9 99 1] in
  (OrderBook.process driver_book executed_sale).2 = Returns trades ∧
  Forall (λ t, Trade.seller t = Order.id executed_sale ∧
               Order.price executed_sale ≤ Trade.price t ∧
               is_Some (OrderBook.bids driver_book !! Trade.price t)) trades ∧
  StronglySorted OrderBook.descending (Trade.price <$> trades).
Proof.
  cbv zeta.
  assert (Hreturns : (OrderBook.process driver_book executed_sale).2 =
    Returns [Trade.make 1 9 100 1; Trade.make 2 9 100 2;
             Trade.make 3 9 99 1; Trade.make 4 9 99 1])
    by (vm_compute; reflexivity).
  split; [exact Hreturns |].
  exact (trades_respect_limit driver_book executed_sale _ Hreturns).
Defined.

(** X19: for a SELL, the quantity traded is exactly what leaves the bid
    side: total bid depth before = total bid depth after + sum of the
    quantities of the trades returned. *)
Theorem traded_quantity_leaves_bid_side (book : OrderBook) (order : Order)
    (trades : list Trade) :
  Order.side order = SELL →
  (OrderBook.process book order).2 = Returns trades →
  side_depth (OrderBook.bids book) =
    side_depth (OrderBook.bids (OrderBook.process book order).1) + trade_total trades.
Proof.
  intros Hside Hreturns.
  destruct (process_sell_result book order Hside) as [[Hsome Hbids] | [Hnil Hbids]];
    rewrite Hbids.
  - assert (trades = (OrderBook.execute_sell book order).1.1) as -> by congruence.
    unfold OrderBook.execute_sell.
    pose proof (book_loop_depth_conserved
      (OrderBook.levels_from (OrderBook.bids book) (Order.price order))
      (Order.id order) (OrderBook.bids book) (Order.quantity order)) as Hloop.
    by destruct (OrderBook.execute_sell_loop _ _ _ _) as [[executed remaining] bids'].
  - assert (trades = []) as -> by congruence. unfold trade_total. simpl. lia.
Qed.

Lemma traded_quantity_leaves_bid_side_witness :
  let trades := [Trade.make 1 9 100 1; Trade.make 2 9 100 2;
                 Trade.make 3 9 99 1; Trade.make 4 9 99 1] in
  Order.side executed_sale = SELL ∧
  (OrderBook.process driver_book executed_sale).2 = Returns trades ∧
  side_depth (OrderBook.bids driver_book) =
    side_depth (OrderBook.bids (OrderBook.process driver_book executed_sale).1)
    + trade_total trades.
Proof.
  cbv zeta.
  assert (Hreturns : (OrderBook.process driver_book executed_sale).2 =
    Returns [Trade.make 1 9 100 1; Trade.make 2 9 100 2;
             Trade.make 3 9 99 1; Trade.make 4 9 99 1])
    by (vm_compute; reflexivity).
  split; [reflexivity |]. split; [exact Hreturns |].
  exact (traded_quantity_leaves_bid_side driver_book executed_sale _ eq_refl Hreturns).
Defined.

(** X20: with nothing resting on the opposite side every order is rested:
    the infinite best price makes the crossing guard false, the order is
    appended to the level at its price and no trade is returned. *)
Theorem empty_opposite_side_rests (book : OrderBook) (order : Order) :
  (Order.side order = BUY ∧ OrderBook.asks book = ∅) ∨
  (Order.side order = SELL ∧ OrderBook.bids book = ∅) →
  OrderBook.process book order = (rested book order, Returns []).
Proof.
  unfold rested. intros [[Hside Hempty] | [Hside Hempty]]; rewrite Hside.
  - rewrite (process_buy _ _ Hside).
    destruct (calc_min_ask_spec book) as [[_ ->] | (m & _ & Hin & _)]; [done |].
    rewrite Hempty in Hin. by destruct Hin.
  - rewrite (process_sell _ _ Hside).
    destruct (calc_max_bid_spec book) as [[_ ->] | (m & _ & Hin & _)]; [done |].
    rewrite Hempty in Hin. by destruct Hin.
Qed.

Lemma empty_opposite_side_rests_witness :
  ((Order.side (sell 1 50 4) = BUY ∧ OrderBook.asks OrderBook.init = ∅) ∨
   (Order.side (sell 1 50 4) = SELL ∧ OrderBook.bids OrderBook.init = ∅)) ∧
  OrderBook.process OrderBook.init (sell 1 50 4) =
    (rested OrderBook.init (sell 1 50 4), Returns []).
Proof.
  assert (Hempty :
    (Order.side (sell 1 50 4) = BUY ∧ OrderBook.asks OrderBook.init = ∅) ∨
    (Order.side (sell 1 50 4) = SELL ∧ OrderBook.bids OrderBook.init = ∅))
    by (right; split; reflexivity).
  split; [exact Hempty |].
  exact (empty_opposite_side_rests OrderBook.init (sell 1 50 4) Hempty).
Defined.

Lemma level_loop_buyers (queue : list Order) (seller at_price q : Z) :
  Forall (λ t, ∃ o, o ∈ queue ∧ Order.id o = Trade.buyer t)
    (OrderLevel.execute_sell_loop queue seller at_price q).1.1.
Proof.
  revert q. induction queue as [| head rest IH]; intros q; simpl; [constructor |].
  destruct (q <? Order.quantity head); simpl.
  - constructor; [| constructor]. exists head. split; [left | done].
  - specialize (IH (q - Order.quantity head)).
    destruct (OrderLevel.execute_sell_loop rest seller at_price (q - Order.quantity head))
      as [[trades remaining] queue'].
    simpl in *. constructor.
    + exists head. split; [left | done].
    + eapply Forall_impl; [exact IH |]. intros t (o & Ho & Hid).
      exists o. split; [by right | done].
Qed.

Lemma book_loop_buyers (levels : list Z) (seller : Z) (bids : gmap Z OrderLevel) (q : Z) :
  NoDup levels →
  Forall (λ t, ∃ level o, bids !! Trade.price t = Some level ∧
                          o ∈ OrderLevel.orders level ∧
                          Order.id o = Trade.buyer t)
    (OrderBook.execute_sell_loop levels seller bids q).1.1.
Proof.
  intros Hnodup. revert bids q.
  induction Hnodup as [| price levels Hnotin Hnodup IH]; intros bids q; [constructor |].
  rewrite book_loop_cons. cbv zeta. unfold OrderLevel.execute_sell.
  pose proof (level_loop_buyers
    (OrderLevel.orders (default OrderLevel.init (bids !! price))) seller price q) as Hbuyers.
  pose proof (level_loop_trades seller price
    (OrderLevel.orders (default OrderLevel.init (bids !! price))) q) as Hprices.
  destruct (OrderLevel.execute_sell_loop _ seller price q) as [[trades q'] queue'].
  simpl in Hbuyers, Hprices.
  assert (Hhere : Forall (λ t, ∃ level o, bids !! Trade.price t = Some level ∧
                                          o ∈ OrderLevel.orders level ∧
                                          Order.id o = Trade.buyer t) trades).
  { rewrite Forall_forall in Hbuyers, Hprices |- *. intros t Ht.
    destruct (Hbuyers t Ht) as (o & Ho & Hid). destruct (Hprices t Ht) as [-> _].
    destruct (bids !! price) as [level |]; [| by apply elem_of_nil in Ho].
    by exists level, o. }
  simpl. destruct (q' =? 0); simpl; [done |].
  match goal with
  | |- context [OrderBook.execute_sell_loop levels seller ?b q'] =>
      specialize (IH b q');
      pose proof (book_loop_trade_prices levels seller b q') as Hin;
      destruct (OrderBook.execute_sell_loop levels seller b q') as [[more remaining] bids'']
  end.
  simpl in *. apply Forall_app. split; [done |].
  rewrite Forall_forall in IH, Hin |- *. intros t Ht.
  destruct (IH t Ht) as (level & o & Hlevel & Ho & Hid).
  destruct (Hin t Ht) as [Hprice _].
  exists level, o. split; [| done].
  assert (Hne : price ≠ Trade.price t) by (intros ->; done).
  destruct queue' as [| o' rest'];
    [by rewrite lookup_delete_ne in Hlevel | by rewrite lookup_insert_ne in Hlevel].
Qed.

(** X21: [execute_sell] trades with resting bids only: the buyer of every
    trade is the identity of an order that rested, before the call, in the bid
    level at the price of the trade. *)
Theorem trades_name_resting_bids (book : OrderBook) (order : Order) :
  Forall (λ t, ∃ level o, OrderBook.bids book !! Trade.price t = Some level ∧
                          o ∈ OrderLevel.orders level ∧
                          Order.id o = Trade.buyer t)
    (OrderBook.execute_sell book order).1.1.
Proof.
  unfold OrderBook.execute_sell.
  pose proof (book_loop_buyers
    (OrderBook.levels_from (OrderBook.bids book) (Order.price order))
    (Order.id order) (OrderBook.bids book) (Order.quantity order)
    (levels_from_NoDup _ _)) as Hloop.
  by destruct (OrderBook.execute_sell_loop _ _ _ _) as [[trades remaining] bids'].
Qed.

(** X22: resting a BUY moves the best bid to the larger of the old best bid
    and the price of the order; on an empty bid side the best bid becomes that
    price. *)
Theorem best_bid_after_resting_buy (book : OrderBook) (order : Order) :
  Order.side order = BUY →
  crosses book order = false →
  OrderBook.calc_max_bid (OrderBook.process book order).1 =
    match OrderBook.calc_max_bid book with
    | Number.Int m => Number.Int (Z.max m (Order.price order))
    | _ => Number.Int (Order.price order)
    end.
Proof.
  intros Hside Hrest. unfold crosses in Hrest. rewrite Hside in Hrest.
  rewrite (process_buy _ _ Hside), Hrest. simpl.
  set (book' := OrderBook.make _ _).
  assert (Hdom : ∀ k, is_Some (OrderBook.bids book' !! k) ↔
                      k = Order.price order ∨ is_Some (OrderBook.bids book !! k))
    by (intros k; apply add_at_dom).
  destruct (calc_max_bid_spec book') as [[Hempty _] | (m' & -> & Hin' & Hup')].
  { exfalso. assert (Hsome : is_Some (OrderBook.bids book' !! Order.price order))
      by (apply Hdom; by left).
    rewrite Hempty in Hsome. by destruct Hsome. }
  destruct (calc_max_bid_spec book) as [[Hempty ->] | (m & -> & Hin & Hup)]; f_equal.
  - apply Hdom in Hin' as [-> | Hin']; [done |].
    rewrite Hempty in Hin'. by destruct Hin'.
  - assert (Order.price order ≤ m') by (apply Hup', Hdom; by left).
    assert (m ≤ m') by (apply Hup', Hdom; by right).
    apply Hdom in Hin' as [-> | Hin']; [lia |].
    specialize (Hup _ Hin'). lia.
Qed.

Lemma best_bid_after_resting_buy_witness :
  Order.side (buy 20 100 1) = BUY ∧
  crosses driver_book (buy 20 100 1) = false ∧
  OrderBook.calc_max_bid (OrderBook.process driver_book (buy 20 100 1)).1 =
    match OrderBook.calc_max_bid driver_book with
    | Number.Int m => Number.Int (Z.max m (Order.price (buy 20 100 1)))
    | _ => Number.Int (Order.price (buy 20 100 1))
    end.
Proof.
  assert (Hrest : crosses driver_book (buy 20 100 1) = false)
    by (vm_compute; reflexivity).
  split; [reflexivity |]. split; [exact Hrest |].
  exact (best_bid_after_resting_buy driver_book (buy 20 100 1) eq_refl Hrest).
Defined.

(** ** Properties of [Output] *)

Lemma max_len_None (rows : list string) : Output.max_len rows = None ↔ rows = [].
Proof. by destruct rows. Qed.

Lemma sorted_items_nil (R : relation (Z * OrderLevel)) `{!RelDecision R}
    (d : gmap Z OrderLevel) :
  merge_sort R (map_to_list d) = [] ↔ d = ∅.
Proof.
  rewrite <- map_to_list_empty_iff. split.
  - intros Hnil. apply Permutation_nil_r. rewrite <- Hnil.
    by rewrite merge_sort_Permutation.
  - intros ->. reflexivity.
Qed.

Lemma sorted_items_length (R : relation (Z * OrderLevel)) `{!RelDecision R}
    (d : gmap Z OrderLevel) :
  length (merge_sort R (map_to_list d)) = size d.
Proof. by rewrite merge_sort_Permutation, length_map_to_list. Qed.

(** X23: [Output.print] raises [ValueError] exactly when one side of the
    book has no level; in particular it cannot render the empty book. *)
Theorem print_fails_iff_a_side_is_empty (book : OrderBook) :
  Output.print book = ValueError ↔
  OrderBook.bids book = ∅ ∨ OrderBook.asks book = ∅.
Proof.
  unfold Output.print, Output.outline.
  rewrite <- (sorted_items_nil Output.by_price_descending (OrderBook.bids book)).
  rewrite <- (sorted_items_nil Output.by_price_ascending (OrderBook.asks book)).
  destruct (merge_sort Output.by_price_descending (map_to_list (OrderBook.bids book)))
    as [| b bs]; [split; [by left | done] |].
  destruct (merge_sort Output.by_price_ascending (map_to_list (OrderBook.asks book)))
    as [| a rows]; [split; [by right | done] |].
  csimpl. split; [done | by intros [? | ?]].
Qed.

(** X24: when [Output.print] succeeds it writes a rule, the header, a rule,
    one row per level of the longer side, and a closing rule: four lines plus
    the larger of the two numbers of levels. *)
Theorem print_line_count (book : OrderBook) (lines : list string) :
  Output.print book = Lines lines →
  length lines =
    (4 + Nat.max (size (OrderBook.bids book)) (size (OrderBook.asks book)))%nat.
Proof.
  unfold Output.print, Output.outline.
  rewrite <- (sorted_items_length Output.by_price_descending (OrderBook.bids book)).
  rewrite <- (sorted_items_length Output.by_price_ascending (OrderBook.asks book)).
  set (bids := merge_sort Output.by_price_descending _).
  set (asks := merge_sort Output.by_price_ascending _).
  destruct (Output.max_len _) as [widest_bid |]; [| done].
  destruct (Output.max_len _) as [widest_ask |]; [| done].
  intros [= <-]. rewrite !length_fmap. cbn [length].
  rewrite length_app, length_zip_with. cbn [length].
  destruct (Nat.ltb_spec (length asks) (length bids)) as [Hlt | Hge].
  - rewrite length_app, length_replicate, !length_fmap. lia.
  - destruct (Nat.ltb_spec (length bids) (length asks)) as [Hlt | Hge'].
    + rewrite length_app, length_replicate, !length_fmap. lia.
    + rewrite !length_fmap. lia.
Qed.

Lemma print_line_count_witness :
  let table :=
    ["________________________________________________________________________________";
     "BID (Buyers)                            | ASK (Sellers)";
     "________________________________________|_______________________________________";
     "Level 100: Total 3 / #2 order           | Level 101: Total 3 / #1 order";
     "Level 99: Total 6 / #3 order            | Level 102: Total 5 / #1 order";
     "Level 98: Total 3 / #1 order            | ";
     "________________________________________|_______________________________________"]
  in
  Output.print driver_book = Lines table ∧
  length table =
    (4 + Nat.max (size (OrderBook.bids driver_book))
                 (size (OrderBook.asks driver_book)))%nat.
Proof.
  cbv zeta.
  assert (Hprint : Output.print driver_book = Lines
    ["________________________________________________________________________________";
     "BID (Buyers)                            | ASK (Sellers)";
     "________________________________________|_______________________________________";
     "Level 100: Total 3 / #2 order           | Level 101: Total 3 / #1 order";
     "Level 99: Total 6 / #3 order            | Level 102: Total 5 / #1 order";
     "Level 98: Total 3 / #1 order            | ";
     "________________________________________|_______________________________________"])
    by (vm_compute; reflexivity).
  split; [exact Hprint |].
  exact (print_line_count driver_book _ Hprint).
Defined.

Lemma string_length_app (s1 s2 : string) :
  String.length (s1 +:+ s2) = (String.length s1 + String.length s2)%nat.
Proof. induction s1 as [| c s1 IH]; simpl; [done | by rewrite IH]. Qed.

Lemma times_length (c : ascii) (n : nat) : String.length (Output.times c n) = n.
Proof. induction n as [| n IH]; simpl; [done | by rewrite IH]. Qed.

Lemma max_len_upper (rows : list string) (widest : nat) (row : string) :
  Output.max_len rows = Some widest → row ∈ rows → (String.length row ≤ widest)%nat.
Proof.
  destruct rows as [| r rs]; [done |]. simpl. intros [= <-] Hrow.
  induction rs as [| r' rs IH]; csimpl.
  - apply list_elem_of_singleton in Hrow as ->. done.
  - apply elem_of_cons in Hrow as [-> | Hrow].
    + assert (String.length r ≤ foldr Nat.max (String.length r) (String.length <$> rs))%nat
        by (apply IH; left). lia.
    + apply elem_of_cons in Hrow as [-> | Hrow]; [lia |].
      assert (String.length row ≤ foldr Nat.max (String.length r) (String.length <$> rs))%nat
        by (apply IH; by right). lia.
Qed.

(** X25: the columns of the table line up: padded with [ljust] to the width
    [outline] computes (the longest bid row plus [spaces]), every bid row, and
    the empty row used as filler, has exactly that width. *)
Theorem bid_cells_have_equal_width (bids : list string) (widest : nat) (row : string) :
  Output.max_len bids = Some widest →
  row ∈ bids ∨ row = EmptyString →
  String.length (Output.ljust row (widest + Output.spaces)) =
    (widest + Output.spaces)%nat.
Proof.
  intros Hmax Hrow. unfold Output.ljust.
  rewrite string_length_app, times_length.
  assert (String.length row ≤ widest)%nat.
  { destruct Hrow as [Hin | ->]; [by eapply max_len_upper | simpl; lia]. }
  lia.
Qed.

Lemma bid_cells_have_equal_width_witness :
  Output.max_len ["Level 100: Total 3 / #2 order"; "Level 99: Total 6 / #3 order"]
    = Some 29%nat ∧
  ("Level 99: Total 6 / #3 order"
     ∈ ["Level 100: Total 3 / #2 order"; "Level 99: Total 6 / #3 order"]
   ∨ "Level 99: Total 6 / #3 order" = EmptyString) ∧
  String.length (Output.ljust "Level 99: Total 6 / #3 order" (29 + Output.spaces)) =
    (29 + Output.spaces)%nat.
Proof.
  assert (Hmax :
    Output.max_len ["Level 100: Total 3 / #2 order"; "Level 99: Total 6 / #3 order"]
      = Some 29%nat) by reflexivity.
  assert (Hrow :
    "Level 99: Total 6 / #3 order"
      ∈ ["Level 100: Total 3 / #2 order"; "Level 99: Total 6 / #3 order"]
    ∨ "Level 99: Total 6 / #3 order" = EmptyString)
    by (left; right; left).
  split; [exact Hmax |]. split; [exact Hrow |].
  exact (bid_cells_have_equal_width _ 29 _ Hmax Hrow).
Defined.

(** ** How calls of [process] compose *)

Lemma empty_bids_rest_buy (i p q : Z) :
  (OrderBook.process OrderBook.init (buy i p q)).1 =
    OrderBook.make {[p := OrderLevel.make [buy i p q]]} ∅.
Proof.
  rewrite process_buy by done. simpl.
  unfold OrderBook.add_at. simpl. rewrite lookup_empty. simpl.
  by rewrite insert_empty.
Qed.

(** X26: arrival order is kept across calls: two BUY orders at the same
    price that do not cross, processed one after the other, end up at the tail
    of the level of that price, the first ahead of the second. *)
Theorem same_price_buys_rest_in_arrival_order (book : OrderBook) (o1 o2 : Order) :
  Order.side o1 = BUY →
  Order.side o2 = BUY →
  Order.price o2 = Order.price o1 →
  crosses book o1 = false →
  OrderBook.bids (OrderBook.process_all book [o1; o2]) !! Order.price o1 =
    Some (OrderLevel.make
            (OrderLevel.orders
               (default OrderLevel.init (OrderBook.bids book !! Order.price o1))
             ++ [o1; o2])).
Proof.
  intros Hside1 Hside2 Hprice Hrest. unfold crosses in Hrest. rewrite Hside1 in Hrest.
  unfold OrderBook.process_all. simpl.
  rewrite (process_buy book o1 Hside1), Hrest. simpl.
  rewrite (process_buy _ o2 Hside2), Hprice.
  unfold OrderBook.calc_min_ask in *. simpl. rewrite Hrest. simpl.
  rewrite add_at_lookup, add_at_lookup. simpl. by rewrite <- app_assoc.
Qed.

Lemma same_price_buys_rest_in_arrival_order_witness :
  Order.side (buy 20 99 4) = BUY ∧
  Order.side (buy 21 99 6) = BUY ∧
  Order.price (buy 21 99 6) = Order.price (buy 20 99 4) ∧
  crosses driver_book (buy 20 99 4) = false ∧
  OrderBook.bids (OrderBook.process_all driver_book [buy 20 99 4; buy 21 99 6]) !! 99 =
    Some (OrderLevel.make
            (OrderLevel.orders (default OrderLevel.init (OrderBook.bids driver_book !! 99))
             ++ [buy 20 99 4; buy 21 99 6])).
Proof.
  assert (Hrest : crosses driver_book (buy 20 99 4) = false)
    by (vm_compute; reflexivity).
  split; [reflexivity |]. split; [reflexivity |]. split; [reflexivity |].
  split; [exact Hrest |].
  exact (same_price_buys_rest_in_arrival_order driver_book (buy 20 99 4) (buy 21 99 6)
           eq_refl eq_refl eq_refl Hrest).
Defined.

(** X27: a BUY into the empty book followed by a SELL of the same price and
    quantity: the sale returns one trade for the whole quantity at that price,
    the bid level is removed, and the sale itself is left resting as an ask
    of quantity zero at its price. *)
Theorem buy_then_matching_sell (i j p q : Z) :
  OrderBook.process (OrderBook.process_all OrderBook.init [buy i p q]) (sell j p q) =
    (OrderBook.make ∅ {[p := OrderLevel.make [sell j p 0]]},
     Returns [Trade.make i j p q]).
Proof.
  unfold OrderBook.process_all. simpl.
  rewrite (empty_bids_rest_buy i p q).
  rewrite process_sell by done.
  unfold OrderBook.calc_max_bid, OrderBook.keys, OrderBook.execute_sell,
    OrderBook.levels_from, OrderBook.keys. simpl.
  rewrite !map_to_list_singleton. simpl.
  rewrite Z.leb_refl.
  rewrite filter_cons_True by (simpl; lia). rewrite filter_nil.
  change (merge_sort OrderBook.descending [p]) with [p].
  rewrite book_loop_cons. cbv zeta.
  rewrite lookup_singleton_eq. simpl.
  unfold OrderLevel.execute_sell. simpl. rewrite Z.ltb_irrefl. simpl.
  rewrite Z.sub_diag. simpl.
  rewrite delete_singleton_eq. unfold OrderBook.add_at. simpl.
  rewrite lookup_empty. simpl. by rewrite insert_empty.
Qed.
